(** * The instance-creation step of the ApsaraStack image builder

    A shallow embedding of [ecs/step_create_instance.go]: the step record,
    the request it assembles, and its [Run] and [Cleanup] methods, written
    over an explicit machine state (the step object, the shared state bag
    and the log of every outward call), followed by the properties the
    specification states about them. *)

From Stdlib Require Import ZArith NArith Ascii String List Lia.
From stdpp Require Import base option list strings gmap fin_maps pretty.

Local Open Scope string_scope.
Local Open Scope Z_scope.
Local Open Scope list_scope.

(** ** encoding/base64: the standard, padded encoding *)

Module base64.

Definition encodeStd : string :=
  "ABCDEFGHIJKLMNOPQRSTUVWXYZabcdefghijklmnopqrstuvwxyz0123456789+/".

Definition StdPadding : ascii := "="%char.

(** [encode[v & 0x3F]] *)
Definition enc (v : N) : ascii :=
  match String.get (N.to_nat (N.land v 63)) encodeStd with
  | Some c => c
  | None => StdPadding
  end.

Definition byte (c : ascii) : N := N_of_ascii c.

(** [Encoding.Encode]: whole three-byte groups give four digits; a
    remainder of one or two bytes gives two or three digits and padding. *)
Fixpoint EncodeToString (src : string) : string :=
  match src with
  | EmptyString => EmptyString
  | String a EmptyString =>
      let val := N.shiftl (byte a) 16 in
      String (enc (N.shiftr val 18))
        (String (enc (N.shiftr val 12))
           (String StdPadding (String StdPadding EmptyString)))
  | String a (String b EmptyString) =>
      let val := N.lor (N.shiftl (byte a) 16) (N.shiftl (byte b) 8) in
      String (enc (N.shiftr val 18))
        (String (enc (N.shiftr val 12))
           (String (enc (N.shiftr val 6))
              (String StdPadding EmptyString)))
  | String a (String b (String c rest)) =>
      let val := N.lor (N.lor (N.shiftl (byte a) 16) (N.shiftl (byte b) 8))
                   (byte c) in
      String (enc (N.shiftr val 18))
        (String (enc (N.shiftr val 12))
           (String (enc (N.shiftr val 6))
              (String (enc val) (EncodeToString rest))))
  end.

End base64.

(** ** strconv and helper/config *)

Module strconv.

Definition FormatBool (b : bool) : string :=
  if b then "true" else "false".

End strconv.

Module confighelper.

(** [type Trilean uint8] with its three named values. *)
Inductive Trilean : Type := TriUnset | TriTrue | TriFalse.

Definition True (t : Trilean) : bool :=
  match t with TriTrue => true | _ => false end.

Definition False (t : Trilean) : bool :=
  match t with TriFalse => true | _ => false end.

Definition is_unset (t : Trilean) : bool :=
  match t with TriUnset => true | _ => false end.

End confighelper.

(** ** Errors

    A Go [error] is either an SDK server error, which carries a vendor
    error code, or any other error (file system, formatted). *)

Inductive error : Type :=
| ServerError (code message : string)
| PlainError (message : string).

Definition Error (e : error) : string :=
  match e with
  | ServerError code message => code +:+ ": " +:+ message
  | PlainError message => message
  end.

Definition ErrorCode (e : error) : option string :=
  match e with
  | ServerError code _ => Some code
  | PlainError _ => None
  end.

(** A Go [(value, error)] pair where the error is checked first. *)
Inductive result (A : Type) : Type :=
| Ok (a : A)
| Err (e : error).
Arguments Ok {A} a.
Arguments Err {A} e.

(** ** The SDK's request and response structures (fields the step touches) *)

Module ecs.

Module Image.
Record t : Type := mk { ImageId : string }.
End Image.

Module Instance.
Record t : Type := mk { InstanceId : string; Status : string }.
End Instance.

Module CreateInstanceDataDisk.
Record t : Type := mk {
  DiskName : string;
  Category : string;
  Size : string;
  SnapshotId : string;
  Description : string;
  DeleteWithInstance : string;
  Device : string;
  Encrypted : string
}.
End CreateInstanceDataDisk.

Module CreateInstanceRequest.
Record t : Type := mk {
  Headers : gmap string string;
  QueryParams : gmap string string;
  ClientToken : string;
  RegionId : string;
  InstanceType : string;
  InstanceName : string;
  ZoneId : string;
  ImageId : string;
  SecurityGroupId : string;
  VSwitchId : string;
  UserData : string;
  InternetChargeType : string;
  InternetMaxBandwidthOut : string;
  IoOptimized : string;
  Password : string;
  SystemDiskDiskName : string;
  SystemDiskCategory : string;
  SystemDiskSize : string;
  SystemDiskDescription : string;
  DataDisk : list CreateInstanceDataDisk.t
}.
End CreateInstanceRequest.

Module CreateInstanceResponse.
Record t : Type := mk { InstanceId : string }.
End CreateInstanceResponse.

Module DeleteInstanceRequest.
Record t : Type := mk {
  Headers : gmap string string;
  QueryParams : gmap string string;
  InstanceId : string;
  Force : string
}.
End DeleteInstanceRequest.

Module DeleteInstanceResponse.
Record t : Type := mk { RequestId : string }.
End DeleteInstanceResponse.

Module DescribeInstancesRequest.
Record t : Type := mk {
  Headers : gmap string string;
  QueryParams : gmap string string;
  InstanceIds : string
}.
End DescribeInstancesRequest.

Module DescribeInstancesResponse.
Record t : Type := mk { Instances : list Instance.t }.
End DescribeInstancesResponse.

End ecs.

Module requests.

(** [requests.NewBoolean]: the request form of a boolean is its text. *)
Definition NewBoolean (b : bool) : string := strconv.FormatBool b.

End requests.

(** ** The builder's configuration (fields the step reads) *)

Module ApsaraStackDiskDevice.
Record t : Type := mk {
  DiskName : string;
  DiskCategory : string;
  DiskSize : Z;
  SnapshotId : string;
  Description : string;
  DeleteWithInstance : bool;
  Device : string;
  Encrypted : confighelper.Trilean
}.
End ApsaraStackDiskDevice.

Module Config.
Record t : Type := mk {
  ApsaraStackRegion : string;
  ApsaraStackSecretKey : string;
  Department : string;
  ResourceGroup : string;
  SSHPassword : string;
  WinRMPassword : string;
  ECSSystemDiskMapping : ApsaraStackDiskDevice.t;
  ECSImagesDiskMappings : list ApsaraStackDiskDevice.t
}.
End Config.

(** ** The step object *)

Module Step.
Record t : Type := mk {
  IOOptimized : confighelper.Trilean;
  InstanceType : string;
  UserData : string;
  UserDataFile : string;
  instanceId : string;
  RegionId : string;
  InternetChargeType : string;
  InternetMaxBandwidthOut : Z;
  InstanceName : string;
  ZoneId : string;
  instance : option ecs.Instance.t
}.

Definition set_InternetChargeType (v : string) (s : t) : t :=
  mk (IOOptimized s) (InstanceType s) (UserData s) (UserDataFile s)
     (instanceId s) (RegionId s) v (InternetMaxBandwidthOut s)
     (InstanceName s) (ZoneId s) (instance s).

Definition set_InternetMaxBandwidthOut (v : Z) (s : t) : t :=
  mk (IOOptimized s) (InstanceType s) (UserData s) (UserDataFile s)
     (instanceId s) (RegionId s) (InternetChargeType s) v
     (InstanceName s) (ZoneId s) (instance s).

Definition set_instance (v : option ecs.Instance.t) (s : t) : t :=
  mk (IOOptimized s) (InstanceType s) (UserData s) (UserDataFile s)
     (instanceId s) (RegionId s) (InternetChargeType s)
     (InternetMaxBandwidthOut s) (InstanceName s) (ZoneId s) v.
End Step.

Abbreviation stepCreateApsaraStackInstance := Step.t.

Definition createInstanceRetryErrors : list string :=
  [ "IdempotentProcessing" ].

Definition deleteInstanceRetryErrors : list string :=
  [ "IncorrectInstanceStatus.Initializing" ].

(** ** The shared state bag

    [multistep.StateBag] maps a key to a value of any type; a reader
    asserts the type it expects and panics when the assertion fails.
    [InstanceNetWork] is a named string type, so a plain string stored
    under that key does not pass the assertion. *)

Definition InstanceNetWork : Type := string.

Inductive Value : Type :=
| VClientWrapper
| VConfig (c : Config.t)
| VUi
| VImage (i : ecs.Image.t)
| VString (s : string)
| VInstanceNetWork (n : InstanceNetWork)
| VInstance (i : ecs.Instance.t)
| VError (e : error).

(** ** Outward calls

    Every call that leaves the step is logged together with what it
    returned: UI output, the token generator, the file system, the three
    vendor calls, the status query of the poll helper, and the pauses of
    the retry loops. *)

Inductive Event : Type :=
| UiSay (msg : string)
| UiMessage (msg : string)
| UiError (msg : string)
| TimeOrderedUUID (token : string)
| ReadFile (path : string) (r : result string)
| CreateInstance (req : ecs.CreateInstanceRequest.t)
    (r : result ecs.CreateInstanceResponse.t)
| DeleteInstance (req : ecs.DeleteInstanceRequest.t)
    (r : result ecs.DeleteInstanceResponse.t)
| DescribeInstances (req : ecs.DescribeInstancesRequest.t)
    (r : result ecs.DescribeInstancesResponse.t)
| InstanceStatus (regionId instanceId : string) (status : string)
| Sleep.

Definition is_CreateInstance (e : Event) : bool :=
  match e with CreateInstance _ _ => true | _ => false end.

Definition is_DeleteInstance (e : Event) : bool :=
  match e with DeleteInstance _ _ => true | _ => false end.

Definition is_TimeOrderedUUID (e : Event) : bool :=
  match e with TimeOrderedUUID _ => true | _ => false end.

Definition is_ReadFile (e : Event) : bool :=
  match e with ReadFile _ _ => true | _ => false end.

Definition is_UiError (e : Event) : bool :=
  match e with UiError _ => true | _ => false end.

(** The outside world answers each call from everything that happened so
    far, so an answer may differ from one attempt to the next. *)
Record World : Type := {
  uuid_TimeOrderedUUID : list Event -> string;
  ioutil_ReadFile : list Event -> string -> result string;
  client_CreateInstance :
    list Event -> ecs.CreateInstanceRequest.t ->
    result ecs.CreateInstanceResponse.t;
  client_DeleteInstance :
    list Event -> ecs.DeleteInstanceRequest.t ->
    result ecs.DeleteInstanceResponse.t;
  client_DescribeInstances :
    list Event -> ecs.DescribeInstancesRequest.t ->
    result ecs.DescribeInstancesResponse.t;
  client_InstanceStatus : list Event -> string -> string -> string
}.

(** ** Machine state and the monad of step code *)

Record Machine : Type := mkMachine {
  self : stepCreateApsaraStackInstance;
  state : gmap string Value;
  log : list Event
}.

Inductive Outcome (A : Type) : Type :=
| Returns (a : A)
| Panics (why : string).
Arguments Returns {A} a.
Arguments Panics {A} why.

Definition M (A : Type) : Type := Machine -> Outcome A * Machine.

Definition ret {A} (a : A) : M A := fun m => (Returns a, m).

Definition bind {A B} (c : M A) (k : A -> M B) : M B :=
  fun m =>
    match c m with
    | (Returns a, m') => k a m'
    | (Panics why, m') => (Panics why, m')
    end.

Definition panic {A} (why : string) : M A := fun m => (Panics why, m).

Notation "x <- c ;; k" := (bind c (fun x => k))
  (at level 100, c at next level, k at level 200, right associativity).
Notation "c ;;; k" := (bind c (fun _ => k))
  (at level 100, k at level 200, right associativity).

Definition emit (e : Event) : M unit :=
  fun m => (Returns tt, mkMachine (self m) (state m) (log m ++ [e])).

Definition get_self : M stepCreateApsaraStackInstance :=
  fun m => (Returns (self m), m).

Definition modify_self
  (f : stepCreateApsaraStackInstance -> stepCreateApsaraStackInstance) :
  M unit :=
  fun m => (Returns tt, mkMachine (f (self m)) (state m) (log m)).

Definition get_log : M (list Event) := fun m => (Returns (log m), m).

(** [state.Get(key)]: the stored value, or nil. *)
Definition Get (key : string) : M (option Value) :=
  fun m => (Returns (state m !! key), m).

(** [state.Put(key, value)] *)
Definition Put (key : string) (v : Value) : M unit :=
  fun m => (Returns tt, mkMachine (self m) (<[key := v]> (state m)) (log m)).

(** The type assertions of the step, one per asserted type. *)
Definition as_ClientWrapper (v : option Value) : M unit :=
  match v with
  | Some VClientWrapper => ret tt
  | _ => panic "interface conversion: not *ClientWrapper"
  end.

Definition as_Config (v : option Value) : M Config.t :=
  match v with
  | Some (VConfig c) => ret c
  | _ => panic "interface conversion: not *Config"
  end.

Definition as_Ui (v : option Value) : M unit :=
  match v with
  | Some VUi => ret tt
  | _ => panic "interface conversion: not packer.Ui"
  end.

Definition as_Image (v : option Value) : M ecs.Image.t :=
  match v with
  | Some (VImage i) => ret i
  | _ => panic "interface conversion: not *ecs.Image"
  end.

Definition as_string (v : option Value) : M string :=
  match v with
  | Some (VString s) => ret s
  | _ => panic "interface conversion: not string"
  end.

Definition as_InstanceNetWork (v : option Value) : M InstanceNetWork :=
  match v with
  | Some (VInstanceNetWork n) => ret n
  | _ => panic "interface conversion: not InstanceNetWork"
  end.

Module ui.
Definition Say (msg : string) : M unit := emit (UiSay msg).
Definition Message (msg : string) : M unit := emit (UiMessage msg).
Definition Error (msg : string) : M unit := emit (UiError msg).
End ui.

Module multistep.
Inductive StepAction : Type := ActionContinue | ActionHalt.
End multistep.

(** ** Declarations of the package that live in its other files

    The step uses these by name only; their values are left open. *)

Class Externals : Type := {
  InstanceNetworkVpc : InstanceNetWork;
  InstanceStatusStopped : string;
  IOOptimizedOptimized : string;
  IOOptimizedNone : string;
  convertNumber : Z -> string;
  (** the retry count [Cleanup] passes to the retry helper *)
  shortRetryTimes : Z;
  (** the retry count the retry helper uses when a caller passes none *)
  defaultRetryTimes : Z;
  (** the number of status queries the poll helper makes *)
  pollRetryTimes : Z;
  (** the UI line of [cleanUpMessage] *)
  cleanUpMessageText : gmap string Value -> string -> string
}.

Inductive WaitForExpectEvalResult : Type :=
| WaitForExpectSuccess
| WaitForExpectToRetry
| WaitForExpectFailToStop.

Inductive EvalErrorType : Type := EvalRetryErrorType.

Record WaitForExpectArgs (A : Type) : Type := {
  RequestFunc : M (result A);
  EvalFunc : result A -> WaitForExpectEvalResult;
  RetryTimes : Z
}.
Arguments RequestFunc {A} _.
Arguments EvalFunc {A} _.
Arguments RetryTimes {A} _.

Definition dquote : string := String (ascii_of_nat 34) EmptyString.

Section Package.

Context `{!Externals} (W : World).

(** *** The calls that leave the process *)


Definition uuid_call : M string :=
  l <- get_log ;;
  let token := uuid_TimeOrderedUUID W l in
  emit (TimeOrderedUUID token) ;;; ret token.

Definition ReadFile_call (path : string) : M (result string) :=
  l <- get_log ;;
  let r := ioutil_ReadFile W l path in
  emit (ReadFile path r) ;;; ret r.

Definition CreateInstance_call (req : ecs.CreateInstanceRequest.t) :
  M (result ecs.CreateInstanceResponse.t) :=
  l <- get_log ;;
  let r := client_CreateInstance W l req in
  emit (CreateInstance req r) ;;; ret r.

Definition DeleteInstance_call (req : ecs.DeleteInstanceRequest.t) :
  M (result ecs.DeleteInstanceResponse.t) :=
  l <- get_log ;;
  let r := client_DeleteInstance W l req in
  emit (DeleteInstance req r) ;;; ret r.

Definition DescribeInstances_call (req : ecs.DescribeInstancesRequest.t) :
  M (result ecs.DescribeInstancesResponse.t) :=
  l <- get_log ;;
  let r := client_DescribeInstances W l req in
  emit (DescribeInstances req r) ;;; ret r.

Definition InstanceStatus_call (regionId instanceId : string) : M string :=
  l <- get_log ;;
  let st := client_InstanceStatus W l regionId instanceId in
  emit (InstanceStatus regionId instanceId st) ;;; ret st.

(** *** Helpers of the package, declared in its other files *)

(** Modelled from the spec: [halt] is not in this file. The spec has every
    failure of [Run] abort the pipeline with a fatal halt; the model
    records the error (with the caller's prefix, when one is given) in the
    state bag, reports it on the UI and answers [ActionHalt]. *)
Definition halt (err : error) (prefix : string) : M multistep.StepAction :=
  let err :=
    if String.eqb prefix "" then err
    else PlainError (prefix +:+ ": " +:+ Error err) in
  Put "error" (VError err) ;;;
  ui.Error (Error err) ;;;
  ret multistep.ActionHalt.

(** Modelled from the spec: [cleanUpMessage] is not in this file. The spec
    gives [Cleanup] no effect besides UI output and the deletion request,
    so the helper is one UI line. *)
Definition cleanUpMessage (module : string) : M unit :=
  fun m => ui.Say (cleanUpMessageText (state m) module) m.

(** Modelled from the spec: [EvalCouldRetryResponse] is not in this file.
    A response without error passes; an error whose vendor code is in the
    given retry set asks for another attempt; every other error is fatal
    at once. *)
Definition EvalCouldRetryResponse {A} (evalErrors : list string)
  (evalErrorType : EvalErrorType) (r : result A) : WaitForExpectEvalResult :=
  match r with
  | Ok _ => WaitForExpectSuccess
  | Err e =>
      match ErrorCode e with
      | Some code =>
          if bool_decide (code ∈ evalErrors) then WaitForExpectToRetry
          else WaitForExpectFailToStop
      | None => WaitForExpectFailToStop
      end
  end.

Definition lastErrorText (lastError : option error) : string :=
  match lastError with
  | Some e => Error e
  | None => "<no error>"
  end.

(** Modelled from the spec: [WaitForExpected] is not in this file. The
    generic retry wrapper issues the request, stops on a pass or on a
    fatal evaluation, and otherwise pauses and issues it again, up to a
    bounded number of attempts; exhausting the bound is an error. *)
Fixpoint WaitForExpected_loop {A} (n : nat) (args : WaitForExpectArgs A)
  (lastError : option error) : M (result A) :=
  match n with
  | O =>
      ret (Err (PlainError
                  ("evaluate failed after retries: " +:+
                   lastErrorText lastError)))
  | S n' =>
      r <- RequestFunc args ;;
      match EvalFunc args r with
      | WaitForExpectSuccess => ret r
      | WaitForExpectFailToStop => ret r
      | WaitForExpectToRetry =>
          emit Sleep ;;;
          WaitForExpected_loop n' args
            (match r with Err e => Some e | Ok _ => None end)
      end
  end.

(** The budget of one call of the wrapper: the caller's [RetryTimes], or
    the wrapper's default when the caller leaves it unset. *)
Definition retryBudget {A} (args : WaitForExpectArgs A) : Z :=
  if RetryTimes args <=? 0 then defaultRetryTimes else RetryTimes args.

Definition WaitForExpected {A} (args : WaitForExpectArgs A) : M (result A) :=
  WaitForExpected_loop (Z.to_nat (retryBudget args)) args None.

(** Modelled from the spec: [WaitForInstanceStatus] is not in this file.
    The blocking poll helper queries the instance's status until it is the
    expected one, pausing between queries; exhausting its budget is an
    error. *)
Fixpoint WaitForInstanceStatus_loop (n : nat)
  (regionId instanceId expectedStatus : string) : M (result unit) :=
  match n with
  | O => ret (Err (PlainError "evaluate failed after retries: <no error>"))
  | S n' =>
      st <- InstanceStatus_call regionId instanceId ;;
      if String.eqb st expectedStatus then ret (Ok tt)
      else
        emit Sleep ;;;
        WaitForInstanceStatus_loop n' regionId instanceId expectedStatus
  end.

Definition WaitForInstanceStatus
  (regionId instanceId expectedStatus : string) : M (result unit) :=
  WaitForInstanceStatus_loop (Z.to_nat pollRetryTimes)
    regionId instanceId expectedStatus.

(** *** The step's methods *)

Definition getUserData : M (result string) :=
  s <- get_self ;;
  let userData := Step.UserData s in
  r <- (if negb (String.eqb (Step.UserDataFile s) "") then
          ReadFile_call (Step.UserDataFile s)
        else ret (Ok userData)) ;;
  match r with
  | Err err => ret (Err err)
  | Ok userData =>
      let userData :=
        if negb (String.eqb userData "") then base64.EncodeToString userData
        else userData in
      ret (Ok userData)
  end.

(** The body of the loop over the configured data disks. *)
Definition dataDiskOf (imageDisk : ApsaraStackDiskDevice.t) :
  ecs.CreateInstanceDataDisk.t :=
  {| ecs.CreateInstanceDataDisk.DiskName :=
       ApsaraStackDiskDevice.DiskName imageDisk;
     ecs.CreateInstanceDataDisk.Category :=
       ApsaraStackDiskDevice.DiskCategory imageDisk;
     ecs.CreateInstanceDataDisk.Size :=
       convertNumber (ApsaraStackDiskDevice.DiskSize imageDisk);
     ecs.CreateInstanceDataDisk.SnapshotId :=
       ApsaraStackDiskDevice.SnapshotId imageDisk;
     ecs.CreateInstanceDataDisk.Description :=
       ApsaraStackDiskDevice.Description imageDisk;
     ecs.CreateInstanceDataDisk.DeleteWithInstance :=
       strconv.FormatBool (ApsaraStackDiskDevice.DeleteWithInstance imageDisk);
     ecs.CreateInstanceDataDisk.Device :=
       ApsaraStackDiskDevice.Device imageDisk;
     ecs.CreateInstanceDataDisk.Encrypted :=
       if negb (confighelper.is_unset (ApsaraStackDiskDevice.Encrypted imageDisk))
       then strconv.FormatBool
              (confighelper.True (ApsaraStackDiskDevice.Encrypted imageDisk))
       else "" |}.

(** The request as it stands when [buildCreateInstanceRequest] returns it:
    every field assignment of the method, over the values it has read. *)
Definition assembleRequest (config : Config.t) (token : string)
  (sourceImage : ecs.Image.t) (securityGroupId vswitchId userData : string)
  (s : stepCreateApsaraStackInstance) : ecs.CreateInstanceRequest.t :=
  let password := Config.SSHPassword config in
  let password :=
    if String.eqb password "" &&
       negb (String.eqb (Config.WinRMPassword config) "")
    then Config.WinRMPassword config else password in
  let systemDisk := Config.ECSSystemDiskMapping config in
  {| ecs.CreateInstanceRequest.Headers :=
       {[ "RegionId" := Config.ApsaraStackRegion config ]};
     ecs.CreateInstanceRequest.QueryParams :=
       <[ "AccessKeySecret" := Config.ApsaraStackSecretKey config ]>
         (<[ "Product" := "ecs" ]>
            (<[ "Department" := Config.Department config ]>
               {[ "ResourceGroup" := Config.ResourceGroup config ]}));
     ecs.CreateInstanceRequest.ClientToken := token;
     ecs.CreateInstanceRequest.RegionId := Step.RegionId s;
     ecs.CreateInstanceRequest.InstanceType := Step.InstanceType s;
     ecs.CreateInstanceRequest.InstanceName := Step.InstanceName s;
     ecs.CreateInstanceRequest.ZoneId := Step.ZoneId s;
     ecs.CreateInstanceRequest.ImageId := ecs.Image.ImageId sourceImage;
     ecs.CreateInstanceRequest.SecurityGroupId := securityGroupId;
     ecs.CreateInstanceRequest.VSwitchId := vswitchId;
     ecs.CreateInstanceRequest.UserData := userData;
     ecs.CreateInstanceRequest.InternetChargeType :=
       Step.InternetChargeType s;
     ecs.CreateInstanceRequest.InternetMaxBandwidthOut :=
       convertNumber (Step.InternetMaxBandwidthOut s);
     ecs.CreateInstanceRequest.IoOptimized :=
       if confighelper.True (Step.IOOptimized s)
       then IOOptimizedOptimized
       else if confighelper.False (Step.IOOptimized s)
            then IOOptimizedNone
            else "";
     ecs.CreateInstanceRequest.Password := password;
     ecs.CreateInstanceRequest.SystemDiskDiskName :=
       ApsaraStackDiskDevice.DiskName systemDisk;
     ecs.CreateInstanceRequest.SystemDiskCategory :=
       ApsaraStackDiskDevice.DiskCategory systemDisk;
     ecs.CreateInstanceRequest.SystemDiskSize :=
       convertNumber (ApsaraStackDiskDevice.DiskSize systemDisk);
     ecs.CreateInstanceRequest.SystemDiskDescription :=
       ApsaraStackDiskDevice.Description systemDisk;
     ecs.CreateInstanceRequest.DataDisk :=
       map dataDiskOf (Config.ECSImagesDiskMappings config) |}.

Definition buildCreateInstanceRequest :
  M (result ecs.CreateInstanceRequest.t) :=
  v <- Get "config" ;;
  config <- as_Config v ;;
  token <- uuid_call ;;
  v <- Get "source_image" ;;
  sourceImage <- as_Image v ;;
  v <- Get "securitygroupid" ;;
  securityGroupId <- as_string v ;;
  v <- Get "networktype" ;;
  networkType <- as_InstanceNetWork v ;;
  r <- (if String.eqb networkType InstanceNetworkVpc then
          v <- Get "vswitchid" ;;
          vswitchId <- as_string v ;;
          u <- getUserData ;;
          match u with
          | Err err => ret (Err err)
          | Ok userData => ret (Ok (vswitchId, userData))
          end
        else
          s <- get_self ;;
          (if String.eqb (Step.InternetChargeType s) "" then
             modify_self (Step.set_InternetChargeType "PayByTraffic")
           else ret tt) ;;;
          s <- get_self ;;
          (if Step.InternetMaxBandwidthOut s =? 0 then
             modify_self (Step.set_InternetMaxBandwidthOut 5)
           else ret tt) ;;;
          ret (Ok ("", ""))) ;;
  match r with
  | Err err => ret (Err err)
  | Ok (vswitchId, userData) =>
      s <- get_self ;;
      ret (Ok (assembleRequest config token sourceImage securityGroupId
                 vswitchId userData s))
  end.

(** The arguments [Run] hands to the retry wrapper: no [RetryTimes]. *)
Definition createArgs (createInstanceRequest : ecs.CreateInstanceRequest.t) :
  WaitForExpectArgs ecs.CreateInstanceResponse.t :=
  {| RequestFunc := CreateInstance_call createInstanceRequest;
     EvalFunc :=
       EvalCouldRetryResponse createInstanceRetryErrors EvalRetryErrorType;
     RetryTimes := 0 |}.

Definition describeRequestOf (config : Config.t) (instanceId : string) :
  ecs.DescribeInstancesRequest.t :=
  {| ecs.DescribeInstancesRequest.Headers :=
       {[ "RegionId" := Config.ApsaraStackRegion config ]};
     ecs.DescribeInstancesRequest.QueryParams :=
       <[ "AccessKeySecret" := Config.ApsaraStackSecretKey config ]>
         {[ "Product" := "ecs" ]};
     ecs.DescribeInstancesRequest.InstanceIds :=
       "[" +:+ dquote +:+ instanceId +:+ dquote +:+ "]" |}.

Definition Run : M multistep.StepAction :=
  v <- Get "client" ;;
  as_ClientWrapper v ;;;
  v <- Get "config" ;;
  config <- as_Config v ;;
  v <- Get "ui" ;;
  as_Ui v ;;;
  ui.Say "Creating instance..." ;;;
  r <- buildCreateInstanceRequest ;;
  match r with
  | Err err => halt err ""
  | Ok createInstanceRequest =>
      r <- WaitForExpected (createArgs createInstanceRequest) ;;
      match r with
      | Err err => halt err "Error creating instance"
      | Ok createInstanceResponse =>
          let instanceId :=
            ecs.CreateInstanceResponse.InstanceId createInstanceResponse in
          s <- get_self ;;
          r <- WaitForInstanceStatus (Step.RegionId s) instanceId
                 InstanceStatusStopped ;;
          match r with
          | Err err => halt err "Error waiting create instance"
          | Ok _ =>
              r <- DescribeInstances_call
                     (describeRequestOf config instanceId) ;;
              match r with
              | Err err => halt err ""
              | Ok instances =>
                  ui.Message ("Created instance: " +:+ instanceId) ;;;
                  match ecs.DescribeInstancesResponse.Instances instances with
                  | [] => panic "index out of range [0] with length 0"
                  | i :: _ =>
                      modify_self (Step.set_instance (Some i)) ;;;
                      Put "instance" (VInstance i) ;;;
                      Put "instance_id" (VString instanceId) ;;;
                      ret multistep.ActionContinue
                  end
              end
          end
      end
  end.

(** The deletion request [Cleanup] builds for the recorded instance. *)
Definition deleteRequestOf (config : Config.t) (i : ecs.Instance.t) :
  ecs.DeleteInstanceRequest.t :=
  {| ecs.DeleteInstanceRequest.Headers :=
       {[ "RegionId" := Config.ApsaraStackRegion config ]};
     ecs.DeleteInstanceRequest.QueryParams :=
       <[ "AccessKeySecret" := Config.ApsaraStackSecretKey config ]>
         (<[ "Product" := "ecs" ]>
            (<[ "Department" := Config.Department config ]>
               {[ "ResourceGroup" := Config.ResourceGroup config ]}));
     ecs.DeleteInstanceRequest.InstanceId := ecs.Instance.InstanceId i;
     ecs.DeleteInstanceRequest.Force := requests.NewBoolean true |}.

(** The request function of [Cleanup]: it builds a fresh deletion request
    at every attempt, reading the instance id through the step object. *)
Definition deleteRequestFunc (config : Config.t) :
  M (result ecs.DeleteInstanceResponse.t) :=
  s <- get_self ;;
  match Step.instance s with
  | None => panic "invalid memory address or nil pointer dereference"
  | Some i => DeleteInstance_call (deleteRequestOf config i)
  end.

(** The arguments [Cleanup] hands to the retry wrapper. *)
Definition deleteArgs (config : Config.t) :
  WaitForExpectArgs ecs.DeleteInstanceResponse.t :=
  {| RequestFunc := deleteRequestFunc config;
     EvalFunc :=
       EvalCouldRetryResponse deleteInstanceRetryErrors EvalRetryErrorType;
     RetryTimes := shortRetryTimes |}.

Definition Cleanup : M unit :=
  s <- get_self ;;
  match Step.instance s with
  | None => ret tt
  | Some i =>
      cleanUpMessage "instance" ;;;
      v <- Get "client" ;;
      as_ClientWrapper v ;;;
      v <- Get "config" ;;
      config <- as_Config v ;;
      v <- Get "ui" ;;
      as_Ui v ;;;
      r <- WaitForExpected (deleteArgs config) ;;
      match r with
      | Err err =>
          s <- get_self ;;
          match Step.instance s with
          | None => panic "invalid memory address or nil pointer dereference"
          | Some i =>
              ui.Say ("Failed to clean up instance " +:+
                      ecs.Instance.InstanceId i +:+ ": " +:+ Error err)
          end
      | Ok _ => ret tt
      end
  end.

End Package.

(** ** A sample deployment

    Concrete values for the declarations left open, a scripted outside
    world and two machines, used by the examples that follow the
    properties. The numbers are chosen for the examples only. *)

Definition sampleExternals : Externals := {|
  InstanceNetworkVpc := "vpc";
  InstanceStatusStopped := "Stopped";
  IOOptimizedOptimized := "optimized";
  IOOptimizedNone := "none";
  convertNumber := fun n => pretty n;
  shortRetryTimes := 3;
  defaultRetryTimes := 5;
  pollRetryTimes := 4;
  cleanUpMessageText := fun _ module => "Cleaning up " +:+ module
|}.

Definition sampleToken : string := "5f0c9a52-0001".

Definition is_InstanceStatus (e : Event) : bool :=
  match e with InstanceStatus _ _ _ => true | _ => false end.

(** The world answers a creation request by the number of creation
    attempts made so far, and a status query by the number of queries made
    so far; every deletion is refused with the retryable code. *)
Definition sampleWorld
  (create : nat -> result ecs.CreateInstanceResponse.t)
  (status : nat -> string) : World := {|
  uuid_TimeOrderedUUID := fun _ => sampleToken;
  ioutil_ReadFile := fun _ path =>
    if String.eqb path "/missing"
    then Err (PlainError "open /missing: no such file or directory")
    else Ok "#!/bin/sh";
  client_CreateInstance := fun l _ =>
    create (length (List.filter is_CreateInstance l));
  client_DeleteInstance := fun _ _ =>
    Err (ServerError "IncorrectInstanceStatus.Initializing" "initializing");
  client_DescribeInstances := fun _ _ =>
    Ok (ecs.DescribeInstancesResponse.mk
          [ecs.Instance.mk "i-123" "Stopped"]);
  client_InstanceStatus := fun l _ _ =>
    status (length (List.filter is_InstanceStatus l))
|}.

Definition created : result ecs.CreateInstanceResponse.t :=
  Ok (ecs.CreateInstanceResponse.mk "i-123").

Definition busy : result ecs.CreateInstanceResponse.t :=
  Err (ServerError "IdempotentProcessing" "request is being processed").

Definition forbidden : result ecs.CreateInstanceResponse.t :=
  Err (ServerError "Forbidden" "not allowed").

(** Busy twice, then created; stopped at the second status query. *)
Definition busyThenCreated : World :=
  sampleWorld (fun n => if (n <? 2)%nat then busy else created)
    (fun n => if (n <? 1)%nat then "Starting" else "Stopped").

(** Busy once, then refused with a code outside the retry set. *)
Definition busyThenForbidden : World :=
  sampleWorld (fun n => if (n <? 1)%nat then busy else forbidden)
    (fun _ => "Stopped").

(** Created at once, but the instance never reaches the stopped status. *)
Definition neverStops : World :=
  sampleWorld (fun _ => created) (fun _ => "Starting").

Definition sampleDisk (encrypted : confighelper.Trilean) :
  ApsaraStackDiskDevice.t :=
  ApsaraStackDiskDevice.mk "data" "cloud_ssd" 40 "" "" true "/dev/xvdb"
    encrypted.

Definition sampleConfig : Config.t :=
  Config.mk "region-1" "secret" "dept" "group" "" "winrm-pw"
    (sampleDisk confighelper.TriUnset)
    [sampleDisk confighelper.TriUnset; sampleDisk confighelper.TriTrue;
     sampleDisk confighelper.TriFalse].

Definition sampleImage : ecs.Image.t := ecs.Image.mk "img-1".

Definition sampleInstance : ecs.Instance.t := ecs.Instance.mk "i-123" "Stopped".

Definition sampleStep (instance : option ecs.Instance.t) :
  stepCreateApsaraStackInstance :=
  Step.mk confighelper.TriTrue "ecs.small" "hello" "" "" "region-1" "" 0
    "packer" "zone-a" instance.

Definition sampleBag (networkType : InstanceNetWork) : gmap string Value :=
  <["client" := VClientWrapper]>
    (<["config" := VConfig sampleConfig]>
       (<["ui" := VUi]>
          (<["source_image" := VImage sampleImage]>
             (<["securitygroupid" := VString "sg-1"]>
                (<["networktype" := VInstanceNetWork networkType]>
                   (<["vswitchid" := VString "vsw-1"]> ∅)))))).

Definition sampleMachine (networkType : InstanceNetWork) : Machine :=
  mkMachine (sampleStep None) (sampleBag networkType) [].

(** A machine whose step object recorded an instance in an earlier run. *)
Definition recordedMachine : Machine :=
  mkMachine (sampleStep (Some sampleInstance)) (sampleBag "vpc") [].

(** The request the sample step builds, by network mode. *)
Definition sampleRequest (vpc : bool) : ecs.CreateInstanceRequest.t :=
  if vpc then
    @assembleRequest sampleExternals sampleConfig sampleToken sampleImage
      "sg-1" "vsw-1" "aGVsbG8=" (sampleStep None)
  else
    @assembleRequest sampleExternals sampleConfig sampleToken sampleImage
      "sg-1" "" ""
      (Step.set_InternetMaxBandwidthOut 5
         (Step.set_InternetChargeType "PayByTraffic" (sampleStep None))).

(** A step whose user-data comes from a file. *)
Definition fileStep (path : string) : stepCreateApsaraStackInstance :=
  Step.mk confighelper.TriFalse "ecs.small" "inline" path "" "region-1"
    "PayByBandwidth" 10 "packer" "zone-a" None.

Definition fileMachine (path : string) : Machine :=
  mkMachine (fileStep path) (sampleBag "vpc") [].

(** A world that creates the instance at once and then describes
    nothing. *)
Definition describesNothing : World := {|
  uuid_TimeOrderedUUID := fun _ => sampleToken;
  ioutil_ReadFile := fun _ _ => Ok "";
  client_CreateInstance := fun _ _ => created;
  client_DeleteInstance := fun _ _ =>
    Ok (ecs.DeleteInstanceResponse.mk "req-1");
  client_DescribeInstances := fun _ _ =>
    Ok (ecs.DescribeInstancesResponse.mk []);
  client_InstanceStatus := fun _ _ _ => "Stopped"
|}.



(** A bag without the vswitch id, and one that holds nothing. *)
Definition bagWithoutVSwitch (networkType : InstanceNetWork) :
  gmap string Value :=
  delete "vswitchid" (sampleBag networkType).

Definition emptyMachine : Machine := mkMachine (sampleStep None) ∅ [].

(** * Properties *)

Section Properties.

Context `{!Externals} (W : World).

(** ** Vocabulary of the statements *)

(** The user-data source as the specification words it: the contents of
    the user-data file when a file path is set, otherwise the inline
    string. *)
Definition resolveUserData (s : stepCreateApsaraStackInstance)
  (l : list Event) : result string :=
  if negb (String.eqb (Step.UserDataFile s) "") then
    ioutil_ReadFile W l (Step.UserDataFile s)
  else Ok (Step.UserData s).

(** The two defaults of the classic-network branch, as one update of the
    step object. *)
Definition classicDefaults (s : stepCreateApsaraStackInstance) :
  stepCreateApsaraStackInstance :=
  let s1 :=
    if String.eqb (Step.InternetChargeType s) ""
    then Step.set_InternetChargeType "PayByTraffic" s else s in
  if Step.InternetMaxBandwidthOut s1 =? 0
  then Step.set_InternetMaxBandwidthOut 5 s1 else s1.

(** The machine once the request build has drawn its token. *)
Definition afterToken (m : Machine) : Machine :=
  mkMachine (self m) (state m)
    (log m ++ [TimeOrderedUUID (uuid_TimeOrderedUUID W (log m))]).

(** The log of one call of the retry wrapper: attempts that asked for a retry,
    each followed by a pause, then either the attempt that settled the
    call or nothing when the budget ran out. The index is the budget left:
    the trace ends without a settling attempt only when it is used up. *)
Inductive RetryTrace {A} (call : result A -> Event)
  (eval : result A -> WaitForExpectEvalResult) :
  nat -> list Event -> result A -> Prop :=
| RetryTrace_exhausted e :
    RetryTrace call eval O [] (Err e)
| RetryTrace_settled n r :
    eval r <> WaitForExpectToRetry ->
    RetryTrace call eval (S n) [call r] r
| RetryTrace_retry n r0 evs r :
    eval r0 = WaitForExpectToRetry ->
    RetryTrace call eval n evs r ->
    RetryTrace call eval (S n) (call r0 :: Sleep :: evs) r.

(** The log of one call of the poll helper: queries answered with another
    status, each followed by a pause, then either the query that saw the
    expected status or nothing when the budget ran out. *)
Inductive PollTrace (regionId instanceId expectedStatus : string) :
  nat -> list Event -> result unit -> Prop :=
| PollTrace_exhausted e :
    PollTrace regionId instanceId expectedStatus O [] (Err e)
| PollTrace_reached n :
    PollTrace regionId instanceId expectedStatus (S n)
      [InstanceStatus regionId instanceId expectedStatus] (Ok tt)
| PollTrace_again n st evs r :
    st <> expectedStatus ->
    PollTrace regionId instanceId expectedStatus n evs r ->
    PollTrace regionId instanceId expectedStatus (S n)
      (InstanceStatus regionId instanceId st :: Sleep :: evs) r.

(** The evaluation functions of the two uses of the retry wrapper. *)
Definition createEval :
  result ecs.CreateInstanceResponse.t -> WaitForExpectEvalResult :=
  EvalCouldRetryResponse createInstanceRetryErrors EvalRetryErrorType.

Definition deleteEval :
  result ecs.DeleteInstanceResponse.t -> WaitForExpectEvalResult :=
  EvalCouldRetryResponse deleteInstanceRetryErrors EvalRetryErrorType.

(** The error [halt] records, and the machine it leaves. *)
Definition haltError (err : error) (prefix : string) : error :=
  if String.eqb prefix "" then err
  else PlainError (prefix +:+ ": " +:+ Error err).

(** A machine whose log grew by the given events and nothing else. *)
Definition extend (m : Machine) (evs : list Event) : Machine :=
  mkMachine (self m) (state m) (log m ++ evs).

Definition halted (err : error) (prefix : string) (m : Machine) : Machine :=
  mkMachine (self m)
    (<["error" := VError (haltError err prefix)]> (state m))
    (log m ++ [UiError (Error (haltError err prefix))]).

(** The state bag holds what [Run] and [Cleanup] assert first: the
    client, the configuration and the UI. *)
Definition bag_ready (st : gmap string Value) (config : Config.t) : Prop :=
  st !! "client" = Some VClientWrapper /\
  st !! "config" = Some (VConfig config) /\
  st !! "ui" = Some VUi.

(** The events of one request build: nothing when the configuration
    cannot be read, else the token, and after it at most one file read,
    which only the private-network branch makes. *)
Inductive BuildEvents (m : Machine) : list Event -> Prop :=
| BuildEvents_none :
    (forall c, state m !! "config" <> Some (VConfig c)) ->
    BuildEvents m []
| BuildEvents_token :
    BuildEvents m [TimeOrderedUUID (uuid_TimeOrderedUUID W (log m))]
| BuildEvents_file path r :
    state m !! "networktype" = Some (VInstanceNetWork InstanceNetworkVpc) ->
    BuildEvents m [TimeOrderedUUID (uuid_TimeOrderedUUID W (log m));
                   ReadFile path r].

(** The budgets of the creation call and of the status poll. *)
Definition creationBudget : nat := Z.to_nat defaultRetryTimes.

Definition pollBudget : nat := Z.to_nat pollRetryTimes.

(** The machine after the first UI line of [Run]. *)
Definition announced (m : Machine) : Machine :=
  extend m [UiSay "Creating instance..."].

(** The behaviours of [Run], one constructor per way it ends: a failed
    type assertion on the bag, each point where it halts, the panic on an
    empty description, and success. *)
Inductive RunBehaviour (m : Machine) :
  Outcome multistep.StepAction -> Machine -> Prop :=
| Run_bag_panics why :
    (forall config, ~ bag_ready (state m) config) ->
    RunBehaviour m (Panics why) m
| Run_build_panics config why m2 :
    bag_ready (state m) config ->
    buildCreateInstanceRequest W (announced m) = (Panics why, m2) ->
    RunBehaviour m (Panics why) m2
| Run_build_fails config err m2 :
    bag_ready (state m) config ->
    buildCreateInstanceRequest W (announced m) = (Returns (Err err), m2) ->
    RunBehaviour m (Returns multistep.ActionHalt) (halted err "" m2)
| Run_create_fails config req m2 cevs err :
    bag_ready (state m) config ->
    buildCreateInstanceRequest W (announced m) = (Returns (Ok req), m2) ->
    RetryTrace (CreateInstance req) createEval creationBudget cevs (Err err) ->
    RunBehaviour m (Returns multistep.ActionHalt)
      (halted err "Error creating instance" (extend m2 cevs))
| Run_poll_fails config req m2 cevs resp pevs err :
    bag_ready (state m) config ->
    buildCreateInstanceRequest W (announced m) = (Returns (Ok req), m2) ->
    RetryTrace (CreateInstance req) createEval creationBudget cevs (Ok resp) ->
    PollTrace (Step.RegionId (self m2))
      (ecs.CreateInstanceResponse.InstanceId resp) InstanceStatusStopped
      pollBudget pevs (Err err) ->
    RunBehaviour m (Returns multistep.ActionHalt)
      (halted err "Error waiting create instance"
         (extend m2 (cevs ++ pevs)))
| Run_describe_fails config req m2 cevs resp pevs u err :
    bag_ready (state m) config ->
    buildCreateInstanceRequest W (announced m) = (Returns (Ok req), m2) ->
    RetryTrace (CreateInstance req) createEval creationBudget cevs (Ok resp) ->
    PollTrace (Step.RegionId (self m2))
      (ecs.CreateInstanceResponse.InstanceId resp) InstanceStatusStopped
      pollBudget pevs (Ok u) ->
    RunBehaviour m (Returns multistep.ActionHalt)
      (halted err ""
         (extend m2
            (cevs ++ pevs ++
             [DescribeInstances
                (describeRequestOf config
                   (ecs.CreateInstanceResponse.InstanceId resp))
                (Err err)])))
| Run_describe_empty config req m2 cevs resp pevs u instances why :
    bag_ready (state m) config ->
    buildCreateInstanceRequest W (announced m) = (Returns (Ok req), m2) ->
    RetryTrace (CreateInstance req) createEval creationBudget cevs (Ok resp) ->
    PollTrace (Step.RegionId (self m2))
      (ecs.CreateInstanceResponse.InstanceId resp) InstanceStatusStopped
      pollBudget pevs (Ok u) ->
    ecs.DescribeInstancesResponse.Instances instances = [] ->
    RunBehaviour m (Panics why)
      (extend m2
         (cevs ++ pevs ++
          [DescribeInstances
             (describeRequestOf config
                (ecs.CreateInstanceResponse.InstanceId resp))
             (Ok instances);
           UiMessage ("Created instance: " +:+
                      ecs.CreateInstanceResponse.InstanceId resp)]))
| Run_succeeds config req m2 cevs resp pevs u instances i rest :
    bag_ready (state m) config ->
    buildCreateInstanceRequest W (announced m) = (Returns (Ok req), m2) ->
    RetryTrace (CreateInstance req) createEval creationBudget cevs (Ok resp) ->
    PollTrace (Step.RegionId (self m2))
      (ecs.CreateInstanceResponse.InstanceId resp) InstanceStatusStopped
      pollBudget pevs (Ok u) ->
    ecs.DescribeInstancesResponse.Instances instances = i :: rest ->
    RunBehaviour m (Returns multistep.ActionContinue)
      (mkMachine (Step.set_instance (Some i) (self m2))
         (<["instance_id" :=
              VString (ecs.CreateInstanceResponse.InstanceId resp)]>
            (<["instance" := VInstance i]> (state m2)))
         (log m2 ++ cevs ++ pevs ++
          [DescribeInstances
             (describeRequestOf config
                (ecs.CreateInstanceResponse.InstanceId resp))
             (Ok instances);
           UiMessage ("Created instance: " +:+
                      ecs.CreateInstanceResponse.InstanceId resp)])).

(** The UI line [Cleanup] writes when the deletion failed, and the budget
    of its deletion call. *)
Definition cleanupFailure (i : ecs.Instance.t)
  (r : result ecs.DeleteInstanceResponse.t) : list Event :=
  match r with
  | Err err =>
      [UiSay ("Failed to clean up instance " +:+
              ecs.Instance.InstanceId i +:+ ": " +:+ Error err)]
  | Ok _ => []
  end.

Definition deletionBudget (config : Config.t) : nat :=
  Z.to_nat (retryBudget (deleteArgs W config)).

(** Events that [Run] produces only after the creation call returned. *)
Definition after_creation (e : Event) : bool :=
  match e with
  | UiMessage _ | UiError _ | DescribeInstances _ _
  | InstanceStatus _ _ _ | Sleep => true
  | _ => false
  end.

(** The encryption field of a data-disk entry, by the disk's setting. *)
Definition encryptedField (t : confighelper.Trilean) : string :=
  match t with
  | confighelper.TriUnset => ""
  | confighelper.TriTrue => "true"
  | confighelper.TriFalse => "false"
  end.

(** Further classifiers of events. *)
Definition is_DescribeInstances (e : Event) : bool :=
  match e with DescribeInstances _ _ => true | _ => false end.

Definition is_UiSay (e : Event) : bool :=
  match e with UiSay _ => true | _ => false end.

Definition is_Sleep (e : Event) : bool :=
  match e with Sleep => true | _ => false end.

(** The I/O-optimisation field of the request, by the step's setting. *)
Definition ioOptimizedField (t : confighelper.Trilean) : string :=
  match t with
  | confighelper.TriTrue => IOOptimizedOptimized
  | confighelper.TriFalse => IOOptimizedNone
  | confighelper.TriUnset => ""
  end.

(** ** The encoder *)

Example base64_Man : base64.EncodeToString "Man" = "TWFu".
Proof. reflexivity. Qed.

Example base64_Ma : base64.EncodeToString "Ma" = "TWE=".
Proof. reflexivity. Qed.

Example base64_M : base64.EncodeToString "M" = "TQ==".
Proof. reflexivity. Qed.

Example base64_script :
  base64.EncodeToString "#!/bin/sh" = "IyEvYmluL3No".
Proof. reflexivity. Qed.

Lemma EncodeToString_nonempty (src : string) :
  src <> EmptyString -> base64.EncodeToString src <> EmptyString.
Proof.
  destruct src as [|a [|b [|c rest]]]; simpl; intros Hne; congruence.
Qed.

Ltac unfold_ops :=
  unfold bind, ret, panic, Get, Put, emit, get_self, get_log, modify_self,
    as_ClientWrapper, as_Config, as_Ui, as_Image, as_string,
    as_InstanceNetWork, ui.Say, ui.Message, ui.Error,
    uuid_call, ReadFile_call, CreateInstance_call, DeleteInstance_call,
    DescribeInstances_call, InstanceStatus_call in *.

Lemma getUserData_eq (m : Machine) :
  getUserData W m =
  if negb (String.eqb (Step.UserDataFile (self m)) "") then
    let r := ioutil_ReadFile W (log m) (Step.UserDataFile (self m)) in
    let m' := mkMachine (self m) (state m)
                (log m ++ [ReadFile (Step.UserDataFile (self m)) r]) in
    match r with
    | Err err => (Returns (Err err), m')
    | Ok data =>
        (Returns (Ok (if negb (String.eqb data "")
                      then base64.EncodeToString data else data)), m')
    end
  else
    (Returns (Ok (if negb (String.eqb (Step.UserData (self m)) "")
                  then base64.EncodeToString (Step.UserData (self m))
                  else Step.UserData (self m))), m).
Proof.
  unfold getUserData. unfold_ops. simpl.
  destruct (negb _); simpl; [|reflexivity].
  destruct (ioutil_ReadFile _ _ _); reflexivity.
Qed.

(** Inversion of a successful request build. *)
Lemma build_Ok_inv (m m' : Machine) (req : ecs.CreateInstanceRequest.t) :
  buildCreateInstanceRequest W m = (Returns (Ok req), m') ->
  exists config sourceImage securityGroupId networkType,
    state m !! "config" = Some (VConfig config) /\
    state m !! "source_image" = Some (VImage sourceImage) /\
    state m !! "securitygroupid" = Some (VString securityGroupId) /\
    state m !! "networktype" = Some (VInstanceNetWork networkType) /\
    ((networkType = InstanceNetworkVpc /\
      exists vswitchId userData,
        state m !! "vswitchid" = Some (VString vswitchId) /\
        getUserData W (afterToken m) = (Returns (Ok userData), m') /\
        req = assembleRequest config (uuid_TimeOrderedUUID W (log m))
                sourceImage securityGroupId vswitchId userData (self m'))
     \/
     (networkType <> InstanceNetworkVpc /\
      m' = mkMachine (classicDefaults (self m)) (state m)
             (log (afterToken m)) /\
      req = assembleRequest config (uuid_TimeOrderedUUID W (log m))
              sourceImage securityGroupId "" "" (self m'))).
Proof.
  unfold buildCreateInstanceRequest. unfold_ops. intros Hb.
  destruct (state m !! "config") as [[]|] eqn:Hc; simpl in Hb; try discriminate Hb.
  destruct (state m !! "source_image") as [[]|] eqn:Hi; simpl in Hb; try discriminate Hb.
  destruct (state m !! "securitygroupid") as [[]|] eqn:Hs; simpl in Hb; try discriminate Hb.
  destruct (state m !! "networktype") as [[]|] eqn:Hn; simpl in Hb; try discriminate Hb.
  do 4 eexists. do 4 (split; [reflexivity|]).
  destruct (String.eqb_spec n InstanceNetworkVpc) as [Heq|Hne].
  - left. split; [assumption|]. simpl in Hb.
    destruct (state m !! "vswitchid") as [[]|] eqn:Hv; simpl in Hb; try discriminate Hb.
    fold (afterToken m) in Hb.
    destruct (getUserData W (afterToken m)) as [[[ud|e]|why] m2] eqn:Hu;
      simpl in Hb; try discriminate Hb.
    injection Hb as <- <-. eauto.
  - right. split; [assumption|]. simpl in Hb.
    unfold classicDefaults.
    destruct (String.eqb (Step.InternetChargeType (self m)) "");
      simpl in Hb |- *;
      match type of Hb with context [Z.eqb ?a ?b] => destruct (Z.eqb a b) end;
      simpl in Hb; injection Hb as <- <-; split; reflexivity.
Qed.

Lemma WaitForExpected_loop_trace {A} (args : WaitForExpectArgs A)
  (call : result A -> Event) (answer : list Event -> result A)
  (s : stepCreateApsaraStackInstance) (st : gmap string Value) :
  (forall l, RequestFunc args (mkMachine s st l) =
             (Returns (answer l), mkMachine s st (l ++ [call (answer l)]))) ->
  forall n lastError l,
  exists r evs,
    WaitForExpected_loop n args lastError (mkMachine s st l) =
      (Returns r, mkMachine s st (l ++ evs)) /\
    RetryTrace call (EvalFunc args) n evs r.
Proof.
  intros Hreq n. induction n as [|n IH]; intros lastError l.
  - simpl. unfold ret. eexists _, []. rewrite app_nil_r.
    split; [reflexivity|constructor].
  - simpl. unfold bind at 1. rewrite Hreq.
    destruct (EvalFunc args (answer l)) eqn:Hev.
    + exists (answer l), [call (answer l)]. split; [reflexivity|].
      constructor. congruence.
    + unfold bind, emit. simpl.
      destruct (IH (match answer l with Err e => Some e | Ok _ => None end)
                  ((l ++ [call (answer l)]) ++ [Sleep]))
        as (r & evs & Hrun & Htr).
      exists r, (call (answer l) :: Sleep :: evs). split.
      * rewrite Hrun. rewrite <- !app_assoc. reflexivity.
      * constructor; assumption.
    + exists (answer l), [call (answer l)]. split; [reflexivity|].
      constructor. congruence.
Qed.


(** Every event of a retry trace is an attempt or a pause. *)
Lemma RetryTrace_events {A} (call : result A -> Event) eval n evs r :
  RetryTrace call eval n evs r ->
  Forall (fun e => e = Sleep \/ exists r0, e = call r0) evs.
Proof.
  induction 1 as [e|n r Hr|n r0 evs r Hr0 Htr IH].
  - constructor.
  - constructor; [right; eauto|constructor].
  - constructor; [right; eauto|]. constructor; [left; reflexivity|exact IH].
Qed.

(** An attempt whose evaluation is fatal is the last event of the trace,
    and its error is what the wrapper returns. *)
Lemma RetryTrace_fatal_last {A} (call : result A -> Event) eval n evs r :
  (forall r1 r2, call r1 = call r2 -> r1 = r2) ->
  (forall r0, call r0 <> Sleep) ->
  RetryTrace call eval n evs r ->
  forall pre r0 post,
    evs = pre ++ call r0 :: post ->
    eval r0 = WaitForExpectFailToStop ->
    post = [] /\ r = r0.
Proof.
  intros Hinj Hns Htr. induction Htr as [e|n r Hr|n r1 evs r Hr1 Htr IH];
    intros pre r0 post Heq Hfatal.
  - destruct pre; discriminate Heq.
  - destruct pre as [|x [|y pre]]; simpl in Heq.
    + injection Heq as Hc <-. apply Hinj in Hc. subst. auto.
    + injection Heq as _ Heq. discriminate Heq.
    + injection Heq as _ Heq. discriminate Heq.
  - destruct pre as [|x [|y pre]]; simpl in Heq.
    + injection Heq as Hc _. apply Hinj in Hc. subst. congruence.
    + injection Heq as _ Hc _. symmetry in Hc. apply Hns in Hc. contradiction.
    + injection Heq as _ _ Heq. eapply IH; eassumption.
Qed.

(** A call of the wrapper that returns a response ends with the attempt
    that produced it. *)
Lemma RetryTrace_Ok_last {A} (call : result A -> Event) eval n evs a :
  RetryTrace call eval n evs (Ok a) ->
  exists pre, evs = pre ++ [call (Ok a)].
Proof.
  remember (Ok a) as r eqn:Hr. induction 1 as [| |n r1 evs r Hr1 Htr IH].
  - discriminate Hr.
  - subst. exists []. reflexivity.
  - destruct (IH Hr) as [pre ->]. exists (call r1 :: Sleep :: pre). reflexivity.
Qed.

(** With budget left the wrapper makes at least one attempt. *)
Lemma RetryTrace_first {A} (call : result A -> Event) eval n evs r :
  RetryTrace call eval (S n) evs r ->
  exists r0 rest, evs = call r0 :: rest.
Proof.
  inversion 1; subst; eauto.
Qed.

(** An attempt whose evaluation asks for a retry is followed, while budget
    is left, by a pause and the next attempt. *)
Lemma RetryTrace_resend {A} (call : result A -> Event) eval n evs r
  (isCall : Event -> bool) :
  (forall r1 r2, call r1 = call r2 -> r1 = r2) ->
  (forall r0, call r0 <> Sleep) ->
  isCall Sleep = false ->
  (forall r0, isCall (call r0) = true) ->
  RetryTrace call eval n evs r ->
  forall pre r0 post,
    evs = pre ++ call r0 :: post ->
    eval r0 = WaitForExpectToRetry ->
    (length (List.filter isCall pre) + 1 < n)%nat ->
    exists r1 post', post = Sleep :: call r1 :: post'.
Proof.
  intros Hinj Hns Hs Hc Htr.
  induction Htr as [e|n r Hr|n r1 evs r Hr1 Htr IH];
    intros pre r0 post Heq Hre Hlt.
  - destruct pre; discriminate Heq.
  - destruct pre as [|x [|y pre]]; simpl in Heq.
    + injection Heq as Hx _. apply Hinj in Hx. subst. contradiction.
    + injection Heq as _ Heq. discriminate Heq.
    + injection Heq as _ Heq. discriminate Heq.
  - destruct pre as [|x [|y pre]]; simpl in Heq.
    + injection Heq as _ <-. cbn [List.filter length] in Hlt.
      destruct n as [|n]; [lia|].
      apply RetryTrace_first in Htr as (r2 & rest & ->). eauto.
    + injection Heq as _ Hx _. symmetry in Hx. apply Hns in Hx.
      contradiction.
    + injection Heq as <- <- Heq.
      cbn [List.filter] in Hlt. rewrite Hc, Hs in Hlt.
      cbn [length] in Hlt.
      eapply IH; [exact Heq|exact Hre|lia].
Qed.

Lemma WaitForInstanceStatus_loop_trace (regionId instanceId expected : string)
  (s : stepCreateApsaraStackInstance) (st : gmap string Value) :
  forall n l,
  exists r evs,
    WaitForInstanceStatus_loop W n regionId instanceId expected
      (mkMachine s st l) = (Returns r, mkMachine s st (l ++ evs)) /\
    PollTrace regionId instanceId expected n evs r.
Proof.
  induction n as [|n IH]; intros l.
  - simpl. unfold ret. eexists _, []. rewrite app_nil_r.
    split; [reflexivity|constructor].
  - simpl. unfold_ops. simpl.
    destruct (String.eqb_spec (client_InstanceStatus W l regionId instanceId)
                expected) as [Heq|Hne].
    + eexists _, [_]. split; [reflexivity|]. rewrite Heq. constructor.
    + destruct (IH ((l ++ [InstanceStatus regionId instanceId
                             (client_InstanceStatus W l regionId instanceId)])
                      ++ [Sleep])) as (r & evs & Hrun & Htr).
      exists r, (InstanceStatus regionId instanceId
                   (client_InstanceStatus W l regionId instanceId)
                 :: Sleep :: evs).
      split.
      * simpl. rewrite Hrun. rewrite <- !app_assoc. reflexivity.
      * constructor; assumption.
Qed.

Lemma PollTrace_events regionId instanceId expected n evs r :
  PollTrace regionId instanceId expected n evs r ->
  Forall (fun e => e = Sleep \/ exists st, e = InstanceStatus regionId instanceId st)
    evs.
Proof.
  induction 1 as [e|n|n st evs r Hst Htr IH].
  - constructor.
  - constructor; [right; eauto|constructor].
  - constructor; [right; eauto|]. constructor; [left; reflexivity|exact IH].
Qed.

(** A poll that succeeds ends on a query answered with the expected
    status. *)
Lemma PollTrace_Ok_last regionId instanceId expected n evs u :
  PollTrace regionId instanceId expected n evs (Ok u) ->
  exists pre, evs = pre ++ [InstanceStatus regionId instanceId expected].
Proof.
  remember (Ok u) as r eqn:Hr. induction 1 as [| |n st evs r Hst Htr IH].
  - discriminate Hr.
  - exists []. reflexivity.
  - destruct (IH Hr) as [pre ->].
    exists (InstanceStatus regionId instanceId st :: Sleep :: pre). reflexivity.
Qed.

(** *** The two uses of the retry wrapper *)

Lemma WaitForExpected_create (req : ecs.CreateInstanceRequest.t)
  (s : stepCreateApsaraStackInstance) (st : gmap string Value)
  (l : list Event) :
  exists r evs,
    WaitForExpected (createArgs W req) (mkMachine s st l) =
      (Returns r, mkMachine s st (l ++ evs)) /\
    RetryTrace (CreateInstance req) createEval
      (Z.to_nat (retryBudget (createArgs W req))) evs r.
Proof.
  unfold WaitForExpected.
  apply (WaitForExpected_loop_trace (createArgs W req) (CreateInstance req)
           (fun l => client_CreateInstance W l req)).
  intros l0. reflexivity.
Qed.

Lemma WaitForExpected_delete (config : Config.t) (i : ecs.Instance.t)
  (s : stepCreateApsaraStackInstance) (st : gmap string Value)
  (l : list Event) :
  Step.instance s = Some i ->
  exists r evs,
    WaitForExpected (deleteArgs W config) (mkMachine s st l) =
      (Returns r, mkMachine s st (l ++ evs)) /\
    RetryTrace (DeleteInstance (deleteRequestOf config i)) deleteEval
      (Z.to_nat (retryBudget (deleteArgs W config))) evs r.
Proof.
  intros Hi. unfold WaitForExpected.
  apply (WaitForExpected_loop_trace (deleteArgs W config)
           (DeleteInstance (deleteRequestOf config i))
           (fun l => client_DeleteInstance W l (deleteRequestOf config i))).
  intros l0. simpl. unfold deleteRequestFunc. unfold_ops. simpl.
  rewrite Hi. reflexivity.
Qed.

(** *** Halting *)

Lemma halt_eq (err : error) (prefix : string) (m : Machine) :
  halt err prefix m = (Returns multistep.ActionHalt, halted err prefix m).
Proof. reflexivity. Qed.

(** *** The request build, whatever its outcome *)

Lemma build_frame (m m' : Machine)
  (o : Outcome (result ecs.CreateInstanceRequest.t)) :
  buildCreateInstanceRequest W m = (o, m') ->
  state m' = state m /\
  Step.instance (self m') = Step.instance (self m) /\
  exists bevs, log m' = log m ++ bevs /\ BuildEvents m bevs.
Proof.
  unfold buildCreateInstanceRequest. unfold_ops. intros Hb.
  assert (Hnone : forall why,
             (forall c, state m !! "config" <> Some (VConfig c)) ->
             (Panics why, m) = (o, m') ->
             state m' = state m /\
             Step.instance (self m') = Step.instance (self m) /\
             exists bevs, log m' = log m ++ bevs /\ BuildEvents m bevs).
  { intros why Hc Heq. injection Heq as <- <-.
    split; [reflexivity|]. split; [reflexivity|].
    exists []. rewrite app_nil_r. split; [reflexivity|].
    constructor. exact Hc. }
  assert (Htok : forall o1,
             (o1, afterToken m) = (o, m') ->
             state m' = state m /\
             Step.instance (self m') = Step.instance (self m) /\
             exists bevs, log m' = log m ++ bevs /\ BuildEvents m bevs).
  { intros o1 Heq. injection Heq as <- <-.
    split; [reflexivity|]. split; [reflexivity|].
    eexists. split; [reflexivity|]. apply BuildEvents_token. }
  destruct (state m !! "config") as [[]|] eqn:Hc; simpl in Hb;
    try (eapply Hnone; [congruence|exact Hb]).
  fold (afterToken m) in Hb.
  destruct (state m !! "source_image") as [[]|] eqn:Hi; simpl in Hb;
    try (eapply Htok; exact Hb).
  destruct (state m !! "securitygroupid") as [[]|] eqn:Hs; simpl in Hb;
    try (eapply Htok; exact Hb).
  destruct (state m !! "networktype") as [[]|] eqn:Hn; simpl in Hb;
    try (eapply Htok; exact Hb).
  destruct (String.eqb_spec n InstanceNetworkVpc) as [Heq|Hne]; simpl in Hb.
  - destruct (state m !! "vswitchid") as [[]|] eqn:Hv; simpl in Hb;
      try (eapply Htok; exact Hb).
    rewrite getUserData_eq in Hb. simpl in Hb.
    destruct (negb (String.eqb (Step.UserDataFile (self m)) "")); simpl in Hb.
    + destruct (ioutil_ReadFile W _ (Step.UserDataFile (self m))) eqn:Hr;
        simpl in Hb; injection Hb as <- <-;
        (split; [reflexivity|]; split; [reflexivity|];
         eexists; split; [rewrite <- app_assoc; reflexivity|];
         apply BuildEvents_file; congruence).
    + eapply Htok; exact Hb.
  - destruct (String.eqb (Step.InternetChargeType (self m)) "");
      simpl in Hb;
      match type of Hb with context [Z.eqb ?a ?b] => destruct (Z.eqb a b) end;
      simpl in Hb; injection Hb as <- <-;
      (split; [reflexivity|]; split; [reflexivity|];
       eexists; split; [reflexivity|]; apply BuildEvents_token).
Qed.

(** *** Stepping through the monad *)

Lemma bind_ret {A B} (a : A) (k : A -> M B) (m : Machine) :
  bind (ret a) k m = k a m.
Proof. reflexivity. Qed.

Lemma bind_panic {A B} (why : string) (k : A -> M B) (m : Machine) :
  bind (panic why) k m = (Panics why, m).
Proof. reflexivity. Qed.

Lemma bind_Get {B} (key : string) (k : option Value -> M B) (m : Machine) :
  bind (Get key) k m = k (state m !! key) m.
Proof. reflexivity. Qed.

Lemma bind_emit {B} (e : Event) (k : unit -> M B) (m : Machine) :
  bind (emit e) k m = k tt (extend m [e]).
Proof. reflexivity. Qed.

Lemma bind_get_self {B} (k : stepCreateApsaraStackInstance -> M B)
  (m : Machine) :
  bind get_self k m = k (self m) m.
Proof. reflexivity. Qed.

Lemma bind_modify_self {B}
  (f : stepCreateApsaraStackInstance -> stepCreateApsaraStackInstance)
  (k : unit -> M B) (m : Machine) :
  bind (modify_self f) k m = k tt (mkMachine (f (self m)) (state m) (log m)).
Proof. reflexivity. Qed.

Lemma bind_Put {B} (key : string) (v : Value) (k : unit -> M B)
  (m : Machine) :
  bind (Put key v) k m =
  k tt (mkMachine (self m) (<[key := v]> (state m)) (log m)).
Proof. reflexivity. Qed.

Lemma bind_run {A B} (c : M A) (k : A -> M B) (m m1 : Machine) (a : A) :
  c m = (Returns a, m1) -> bind c k m = k a m1.
Proof. intros Hc. unfold bind. rewrite Hc. reflexivity. Qed.

Lemma bind_run_panic {A B} (c : M A) (k : A -> M B) (m m1 : Machine)
  (why : string) :
  c m = (Panics why, m1) -> bind c k m = (Panics why, m1).
Proof. intros Hc. unfold bind. rewrite Hc. reflexivity. Qed.

Lemma DescribeInstances_call_eq (req : ecs.DescribeInstancesRequest.t)
  (m : Machine) :
  DescribeInstances_call W req m =
  (Returns (client_DescribeInstances W (log m) req),
   extend m [DescribeInstances req (client_DescribeInstances W (log m) req)]).
Proof. reflexivity. Qed.

(** *** The behaviours of [Run] *)

Ltac norm_log HR :=
  unfold extend, halted in HR |- *;
  cbn [log self state] in HR |- *;
  rewrite <- ?app_assoc in HR;
  rewrite <- ?app_assoc;
  cbn [app] in HR |- *.

Lemma Run_behaviour (m m' : Machine) (o : Outcome multistep.StepAction) :
  Run W m = (o, m') -> RunBehaviour m o m'.
Proof.
  unfold Run.
  assert (Hbad : forall why,
             (forall config, ~ bag_ready (state m) config) ->
             (@Panics multistep.StepAction why, m) = (o, m') ->
             RunBehaviour m o m').
  { intros why Hno Heq. injection Heq as <- <-. constructor. exact Hno. }
  rewrite bind_Get.
  destruct (state m !! "client") as [[]|] eqn:Hcl; cbn [as_ClientWrapper];
    try (rewrite bind_panic; apply Hbad; intros config (Hx & _ & _);
         congruence).
  rewrite bind_ret, bind_Get.
  destruct (state m !! "config") as [[|config| |?|?|?|?|?]|] eqn:Hcf;
    cbn [as_Config];
    try (rewrite bind_panic; apply Hbad; intros config' (_ & Hx & _);
         congruence).
  rewrite bind_ret, bind_Get.
  destruct (state m !! "ui") as [[]|] eqn:Hui; cbn [as_Ui];
    try (rewrite bind_panic; apply Hbad; intros config' (_ & _ & Hx);
         congruence).
  rewrite bind_ret. unfold ui.Say at 1. rewrite bind_emit.
  fold (announced m).
  assert (Hready : bag_ready (state m) config) by (repeat split; assumption).
  destruct (buildCreateInstanceRequest W (announced m))
    as [[[req|err]|why] m2] eqn:Hb.
  - rewrite (bind_run _ _ _ _ _ Hb). cbv beta iota.
    destruct m2 as [s2 st2 l2].
    destruct (WaitForExpected_create req s2 st2 l2) as (r & cevs & Hw & Htr).
    rewrite (bind_run _ _ _ _ _ Hw). cbv beta iota.
    change (Z.to_nat (retryBudget (createArgs W req))) with creationBudget
      in Htr.
    destruct r as [resp|err].
    + rewrite bind_get_self. cbn [self].
      destruct (WaitForInstanceStatus_loop_trace (Step.RegionId s2)
                  (ecs.CreateInstanceResponse.InstanceId resp)
                  InstanceStatusStopped s2 st2 (Z.to_nat pollRetryTimes)
                  (l2 ++ cevs)) as (rp & pevs & Hp & Hptr).
      fold (WaitForInstanceStatus W (Step.RegionId s2)
              (ecs.CreateInstanceResponse.InstanceId resp)
              InstanceStatusStopped) in Hp.
      rewrite (bind_run _ _ _ _ _ Hp). cbv beta iota.
      fold pollBudget in Hptr.
      destruct rp as [u|err].
      * pose proof (DescribeInstances_call_eq
                      (describeRequestOf config
                         (ecs.CreateInstanceResponse.InstanceId resp))
                      (mkMachine s2 st2 ((l2 ++ cevs) ++ pevs))) as Hd.
        rewrite (bind_run _ _ _ _ _ Hd). cbn [log self state extend].
        destruct (client_DescribeInstances W ((l2 ++ cevs) ++ pevs)
                    (describeRequestOf config
                       (ecs.CreateInstanceResponse.InstanceId resp)))
          as [instances|err] eqn:Hdr.
        -- unfold ui.Message. rewrite bind_emit. cbn [log self state extend].
           destruct (ecs.DescribeInstancesResponse.Instances instances)
             as [|i rest] eqn:Hins.
           ++ unfold panic. intros Heq. injection Heq as <- <-.
              pose proof (Run_describe_empty m config req
                            (mkMachine s2 st2 l2) cevs resp pevs u instances
                            "index out of range [0] with length 0"
                            Hready Hb Htr Hptr Hins) as HR.
              norm_log HR. exact HR.
           ++ rewrite bind_modify_self, !bind_Put. unfold ret.
              cbn [log self state extend].
              intros Heq. injection Heq as <- <-.
              pose proof (Run_succeeds m config req
                            (mkMachine s2 st2 l2) cevs resp pevs u instances
                            i rest Hready Hb Htr Hptr Hins) as HR.
              norm_log HR. exact HR.
        -- rewrite halt_eq. intros Heq. injection Heq as <- <-.
           pose proof (Run_describe_fails m config req
                         (mkMachine s2 st2 l2) cevs resp pevs u err
                         Hready Hb Htr Hptr) as HR.
           norm_log HR. exact HR.
      * rewrite halt_eq. intros Heq. injection Heq as <- <-.
        pose proof (Run_poll_fails m config req
                      (mkMachine s2 st2 l2) cevs resp pevs err
                      Hready Hb Htr Hptr) as HR.
        norm_log HR. exact HR.
    + rewrite halt_eq. intros Heq. injection Heq as <- <-.
      pose proof (Run_create_fails m config req (mkMachine s2 st2 l2) cevs
                    err Hready Hb Htr) as HR.
      norm_log HR. exact HR.
  - rewrite (bind_run _ _ _ _ _ Hb). cbv beta iota.
    rewrite halt_eq. intros Heq. injection Heq as <- <-.
    eapply Run_build_fails; eassumption.
  - rewrite (bind_run_panic _ _ _ _ _ Hb).
    intros Heq. injection Heq as <- <-.
    eapply Run_build_panics; eassumption.
Qed.

(** *** [Cleanup] when an instance was recorded *)

Lemma Cleanup_behaviour (m : Machine) (i : ecs.Instance.t)
  (config : Config.t) :
  Step.instance (self m) = Some i ->
  bag_ready (state m) config ->
  let said := UiSay (cleanUpMessageText (state m) "instance") in
  exists r devs,
    WaitForExpected (deleteArgs W config) (extend m [said]) =
      (Returns r, extend m (said :: devs)) /\
    RetryTrace (DeleteInstance (deleteRequestOf config i)) deleteEval
      (deletionBudget config) devs r /\
    Cleanup W m = (Returns tt, extend m (said :: devs ++ cleanupFailure i r)).
Proof.
  intros Hi (Hcl & Hcf & Hui) said. unfold Cleanup.
  rewrite bind_get_self, Hi.
  assert (Hmsg : cleanUpMessage "instance" m = (Returns tt, extend m [said]))
    by reflexivity.
  rewrite (bind_run _ _ _ _ _ Hmsg).
  unfold extend.
  rewrite bind_Get. cbn [state]. rewrite Hcl. cbn [as_ClientWrapper].
  rewrite bind_ret, bind_Get. cbn [state]. rewrite Hcf. cbn [as_Config].
  rewrite bind_ret, bind_Get. cbn [state]. rewrite Hui. cbn [as_Ui].
  rewrite bind_ret.
  destruct (WaitForExpected_delete config i (self m) (state m)
              (log m ++ [said]) Hi)
    as (r & devs & Hw & Htr).
  exists r, devs.
  split; [rewrite Hw, <- app_assoc; reflexivity|].
  split; [exact Htr|].
  rewrite (bind_run _ _ _ _ _ Hw).
  destruct r as [resp|err]; cbn [cleanupFailure].
  - unfold ret. rewrite app_nil_r, <- app_assoc. reflexivity.
  - rewrite bind_get_self. cbn [self]. rewrite Hi.
    unfold ui.Say, emit. cbn [self state log].
    rewrite <- !app_assoc. reflexivity.
Qed.

(** *** Splitting a log around one event *)

Lemma split_outside (P : Event -> Prop) (C pre post : list Event) (x : Event) :
  Forall P C -> ~ P x -> C <> pre ++ x :: post.
Proof.
  intros HC Hx Heq. subst C. apply Forall_app in HC as [_ HC].
  apply Forall_cons in HC as [HC _]. contradiction.
Qed.

Lemma split_tail (P : Event -> Prop) (B C pre post : list Event)
  (x : Event) :
  Forall P C -> ~ P x ->
  B ++ C = pre ++ x :: post ->
  exists post', B = pre ++ x :: post' /\ post = post' ++ C.
Proof.
  intros HC Hx. revert pre. induction B as [|b B IH]; intros pre Heq.
  - simpl in Heq. exfalso. eapply split_outside; eassumption.
  - destruct pre as [|p pre]; simpl in Heq.
    + injection Heq as -> <-. exists B. split; reflexivity.
    + injection Heq as -> Heq. destruct (IH _ Heq) as (post' & -> & ->).
      exists post'. split; reflexivity.
Qed.

Lemma split_middle (P : Event -> Prop) (A B C pre post : list Event)
  (x : Event) :
  Forall P A -> Forall P C -> ~ P x ->
  A ++ B ++ C = pre ++ x :: post ->
  exists pre' post',
    B = pre' ++ x :: post' /\ pre = A ++ pre' /\ post = post' ++ C.
Proof.
  intros HA HC Hx. revert pre. induction A as [|a A IH]; intros pre Heq.
  - simpl in Heq. destruct (split_tail P B C pre post x HC Hx Heq)
      as (post' & -> & ->).
    exists pre, post'. repeat split.
  - apply Forall_cons in HA as [Ha HA].
    destruct pre as [|p pre]; simpl in Heq.
    + injection Heq as -> _. contradiction.
    + injection Heq as -> Heq.
      destruct (IH HA _ Heq) as (pre' & post' & -> & -> & ->).
      exists pre', post'. repeat split.
Qed.

(** *** The shape of the log of one [Run] *)

Lemma PollTrace_after_creation regionId instanceId expected n evs r :
  PollTrace regionId instanceId expected n evs r ->
  Forall (fun e => after_creation e = true) evs.
Proof.
  intros Htr. apply PollTrace_events in Htr.
  eapply Forall_impl; [exact Htr|].
  intros e [->|[st ->]]; reflexivity.
Qed.

Lemma Run_shape (m m' : Machine) (o : Outcome multistep.StepAction)
  (config : Config.t) :
  bag_ready (state m) config ->
  Run W m = (o, m') ->
  exists bevs B C,
    log m' = log m ++ (UiSay "Creating instance..." :: bevs) ++ B ++ C /\
    BuildEvents (announced m) bevs /\
    Forall (fun e => after_creation e = true) C /\
    (B = [] \/
     exists req r m2,
       buildCreateInstanceRequest W (announced m) = (Returns (Ok req), m2) /\
       RetryTrace (CreateInstance req) createEval creationBudget B r /\
       (forall err, r = Err err -> o = Returns multistep.ActionHalt)).
Proof.
  intros Hready Hrun. apply Run_behaviour in Hrun.
  assert (Hlog : forall ob m2,
             buildCreateInstanceRequest W (announced m) = (ob, m2) ->
             exists bevs,
               log m2 = log m ++ UiSay "Creating instance..." :: bevs /\
               BuildEvents (announced m) bevs).
  { intros ob m2 Hb. apply build_frame in Hb as (_ & _ & bevs & Hl & Hbe).
    exists bevs. split; [|exact Hbe]. rewrite Hl. unfold announced, extend.
    cbn [log]. rewrite <- app_assoc. reflexivity. }
  destruct Hrun as
    [ why Hno
    | config' why m2 _ Hb
    | config' err m2 _ Hb
    | config' req m2 cevs err _ Hb Htr
    | config' req m2 cevs resp pevs err _ Hb Htr Hp
    | config' req m2 cevs resp pevs u err _ Hb Htr Hp
    | config' req m2 cevs resp pevs u instances why _ Hb Htr Hp Hins
    | config' req m2 cevs resp pevs u instances i rest _ Hb Htr Hp Hins ].
  - exfalso. exact (Hno config Hready).
  - destruct (Hlog _ _ Hb) as (bevs & Hl & Hbe).
    exists bevs, [], []. rewrite Hl, !app_nil_r.
    split; [reflexivity|]. split; [exact Hbe|].
    split; [constructor|]. left. reflexivity.
  - destruct (Hlog _ _ Hb) as (bevs & Hl & Hbe).
    exists bevs, [], [UiError (Error (haltError err ""))].
    unfold halted. cbn [log]. rewrite Hl, <- app_assoc.
    split; [reflexivity|]. split; [exact Hbe|].
    split; [repeat constructor|]. left. reflexivity.
  - destruct (Hlog _ _ Hb) as (bevs & Hl & Hbe).
    exists bevs, cevs,
      [UiError (Error (haltError err "Error creating instance"))].
    unfold halted, extend. cbn [log]. rewrite Hl, <- !app_assoc.
    split; [reflexivity|]. split; [exact Hbe|].
    split; [repeat constructor|].
    right. exists req, (Err err), m2.
    split; [exact Hb|]. split; [exact Htr|]. reflexivity.
  - destruct (Hlog _ _ Hb) as (bevs & Hl & Hbe).
    exists bevs, cevs,
      (pevs ++
       [UiError (Error (haltError err "Error waiting create instance"))]).
    unfold halted, extend. cbn [log]. rewrite Hl, <- !app_assoc.
    split; [reflexivity|]. split; [exact Hbe|]. split.
    + apply Forall_app. split.
      * eapply PollTrace_after_creation; exact Hp.
      * repeat constructor.
    + right. exists req, (Ok resp), m2.
      split; [exact Hb|]. split; [exact Htr|].
      intros err0 Hx. discriminate Hx.
  - destruct (Hlog _ _ Hb) as (bevs & Hl & Hbe).
    exists bevs, cevs,
      (pevs ++
       [DescribeInstances
          (describeRequestOf config'
             (ecs.CreateInstanceResponse.InstanceId resp)) (Err err);
        UiError (Error (haltError err ""))]).
    unfold halted, extend. cbn [log]. rewrite Hl, <- !app_assoc.
    split; [reflexivity|]. split; [exact Hbe|]. split.
    + apply Forall_app. split.
      * eapply PollTrace_after_creation; exact Hp.
      * repeat constructor.
    + right. exists req, (Ok resp), m2.
      split; [exact Hb|]. split; [exact Htr|].
      intros err0 Hx. discriminate Hx.
  - destruct (Hlog _ _ Hb) as (bevs & Hl & Hbe).
    eexists bevs, cevs, (pevs ++ [_; _]).
    unfold extend. cbn [log]. rewrite Hl, <- !app_assoc.
    split; [reflexivity|]. split; [exact Hbe|]. split.
    + apply Forall_app. split.
      * eapply PollTrace_after_creation; exact Hp.
      * repeat constructor.
    + right. exists req, (Ok resp), m2.
      split; [exact Hb|]. split; [exact Htr|].
      intros err0 Hx. discriminate Hx.
  - destruct (Hlog _ _ Hb) as (bevs & Hl & Hbe).
    eexists bevs, cevs, (pevs ++ [_; _]).
    cbn [log]. rewrite Hl, <- !app_assoc.
    split; [reflexivity|]. split; [exact Hbe|]. split.
    + apply Forall_app. split.
      * eapply PollTrace_after_creation; exact Hp.
      * repeat constructor.
    + right. exists req, (Ok resp), m2.
      split; [exact Hb|]. split; [exact Htr|].
      intros err0 Hx. discriminate Hx.
Qed.

Lemma BuildEvents_no_create (m : Machine) (bevs : list Event) :
  BuildEvents m bevs -> Forall (fun e => is_CreateInstance e = false) bevs.
Proof. destruct 1; repeat constructor. Qed.

Lemma after_creation_no_create (C : list Event) :
  Forall (fun e => after_creation e = true) C ->
  Forall (fun e => is_CreateInstance e = false) C.
Proof.
  intros HC. eapply Forall_impl; [exact HC|].
  intros [] He; try reflexivity; discriminate He.
Qed.

Lemma createEval_fatal (code message : string) :
  code ∉ createInstanceRetryErrors ->
  createEval (Err (ServerError code message)) = WaitForExpectFailToStop.
Proof.
  intros Hcode. unfold createEval, EvalCouldRetryResponse. cbn [ErrorCode].
  rewrite bool_decide_eq_false_2; [reflexivity|exact Hcode].
Qed.

Lemma Run_bag_cases (m m' : Machine) (o : Outcome multistep.StepAction) :
  Run W m = (o, m') ->
  m' = m \/ exists config, bag_ready (state m) config.
Proof.
  intros Hrun. apply Run_behaviour in Hrun.
  destruct Hrun; eauto.
Qed.

Lemma log_not_extended (l pre post : list Event) (x : Event) :
  l <> l ++ pre ++ x :: post.
Proof.
  intros Heq. apply (f_equal (@length Event)) in Heq.
  rewrite !length_app in Heq. simpl in Heq. lia.
Qed.

Lemma not_retryable_create (code : string) :
  code <> "IdempotentProcessing" -> code ∉ createInstanceRetryErrors.
Proof.
  intros Hne Hin. unfold createInstanceRetryErrors in Hin.
  apply list_elem_of_singleton in Hin. contradiction.
Qed.

(** ** The claims *)

(** C1. A creation attempt answered with a vendor error code outside the
    creation retry set (whose only member is IdempotentProcessing) is the
    last creation request of the run, and the run halts the pipeline. *)
Theorem Run_fatal_creation_error_halts (m m' : Machine)
  (o : Outcome multistep.StepAction) (pre post : list Event)
  (req : ecs.CreateInstanceRequest.t) (code message : string) :
  Run W m = (o, m') ->
  log m' =
    log m ++ pre ++ CreateInstance req (Err (ServerError code message)) :: post ->
  code <> "IdempotentProcessing" ->
  o = Returns multistep.ActionHalt /\
  Forall (fun e => is_CreateInstance e = false) post.
Proof.
  intros Hrun Hlog Hcode.
  destruct (Run_bag_cases _ _ _ Hrun) as [->|[config Hready]].
  { exfalso. eapply log_not_extended; exact Hlog. }
  destruct (Run_shape _ _ _ _ Hready Hrun)
    as (bevs & B & C & Hl & Hbe & HC & HB).
  rewrite Hl in Hlog. apply app_inv_head in Hlog.
  assert (HA : Forall (fun e => is_CreateInstance e = false)
                 (UiSay "Creating instance..." :: bevs)).
  { constructor; [reflexivity|]. eapply BuildEvents_no_create; exact Hbe. }
  apply after_creation_no_create in HC.
  assert (Hnx : ~ is_CreateInstance
                    (CreateInstance req (Err (ServerError code message)))
                  = false) by (simpl; discriminate).
  destruct (split_middle _ _ _ _ _ _ _ HA HC Hnx Hlog)
    as (pre' & post' & HBeq & -> & ->).
  destruct HB as [->|(req0 & r & m2 & Hb & Htr & Hhalt)].
  { destruct pre'; discriminate HBeq. }
  assert (Hx : exists r0,
             CreateInstance req (Err (ServerError code message)) =
             CreateInstance req0 r0).
  { pose proof (RetryTrace_events _ _ _ _ _ Htr) as Hev.
    rewrite HBeq in Hev. apply Forall_app in Hev as [_ Hev].
    apply Forall_cons in Hev as [[Hs|Hc] _]; [discriminate Hs|exact Hc]. }
  destruct Hx as [r0 Hx]. injection Hx as <- <-.
  assert (Hinj : forall r1 r2,
             CreateInstance req r1 = CreateInstance req r2 -> r1 = r2)
    by (intros r1 r2 Hc; injection Hc; auto).
  assert (Hns : forall r1, CreateInstance req r1 <> Sleep)
    by (intros r1; discriminate).
  destruct (RetryTrace_fatal_last (CreateInstance req) createEval _ _ _
              Hinj Hns Htr _ _ _ HBeq
              (createEval_fatal _ _ (not_retryable_create _ Hcode)))
    as [-> ->].
  split; [eapply Hhalt; reflexivity|exact HC].
Qed.

Lemma filter_none (f : Event -> bool) (l : list Event) :
  Forall (fun e => f e = false) l -> List.filter f l = [].
Proof.
  induction 1 as [|e l He Hl IH]; simpl; [reflexivity|].
  rewrite He. exact IH.
Qed.

Lemma RetryTrace_no_token {A} (call : result A -> Event) eval n evs r :
  (forall r0, is_TimeOrderedUUID (call r0) = false) ->
  RetryTrace call eval n evs r ->
  Forall (fun e => is_TimeOrderedUUID e = false) evs.
Proof.
  intros Hcall Htr. apply RetryTrace_events in Htr.
  eapply Forall_impl; [exact Htr|].
  intros e [->|[r0 ->]]; [reflexivity|apply Hcall].
Qed.

Lemma after_creation_no_token (C : list Event) :
  Forall (fun e => after_creation e = true) C ->
  Forall (fun e => is_TimeOrderedUUID e = false) C.
Proof.
  intros HC. eapply Forall_impl; [exact HC|].
  intros [] He; try reflexivity; discriminate He.
Qed.

Lemma Run_sends_built_request (m m' m2 : Machine)
  (o : Outcome multistep.StepAction) (config : Config.t)
  (req : ecs.CreateInstanceRequest.t) :
  bag_ready (state m) config ->
  Run W m = (o, m') ->
  buildCreateInstanceRequest W (announced m) = (Returns (Ok req), m2) ->
  (0 < creationBudget)%nat ->
  exists bevs r post,
    log m' =
      log m ++ (UiSay "Creating instance..." :: bevs) ++
      CreateInstance req r :: post /\
    BuildEvents (announced m) bevs.
Proof.
  intros Hready Hrun Hbuild Hpos. apply Run_behaviour in Hrun.
  assert (Hsent : forall cevs rc rest,
             RetryTrace (CreateInstance req) createEval creationBudget
               cevs rc ->
             exists bevs r post,
               log m2 ++ cevs ++ rest =
                 log m ++ (UiSay "Creating instance..." :: bevs) ++
                 CreateInstance req r :: post /\
               BuildEvents (announced m) bevs).
  { intros cevs rc rest Htr.
    destruct creationBudget as [|n]; [lia|].
    apply RetryTrace_first in Htr as (r0 & crest & ->).
    pose proof Hbuild as Hf.
    apply build_frame in Hf as (_ & _ & bevs & Hl & Hbe).
    exists bevs, r0, (crest ++ rest). split; [|exact Hbe].
    rewrite Hl. unfold announced, extend. cbn [log].
    rewrite <- !app_assoc. reflexivity. }
  destruct Hrun as
    [ why Hno
    | config' why m3 _ Hb
    | config' err m3 _ Hb
    | config' req' m3 cevs err _ Hb Htr
    | config' req' m3 cevs resp pevs err _ Hb Htr Hp
    | config' req' m3 cevs resp pevs u err _ Hb Htr Hp
    | config' req' m3 cevs resp pevs u instances why _ Hb Htr Hp Hins
    | config' req' m3 cevs resp pevs u instances i rest _ Hb Htr Hp Hins ];
    try (exfalso; exact (Hno config Hready));
    rewrite Hbuild in Hb; try discriminate Hb;
    injection Hb as <- <-;
    unfold halted, extend; cbn [log]; rewrite <- ?app_assoc;
    eapply Hsent; exact Htr.
Qed.

(** C9. One run generates exactly one client token. Every creation
    attempt of that run sends one and the same request, which carries that
    token; the request the build returned is sent as soon as the creation
    budget is positive; and an attempt answered IdempotentProcessing is
    followed, while budget is left, by a pause and the same request
    again. *)
Theorem Run_single_token (m m' : Machine)
  (o : Outcome multistep.StepAction) (config : Config.t) :
  bag_ready (state m) config ->
  Run W m = (o, m') ->
  exists evs token,
    log m' = log m ++ evs /\
    List.filter is_TimeOrderedUUID evs = [TimeOrderedUUID token] /\
    (forall req r,
       CreateInstance req r ∈ evs ->
       ecs.CreateInstanceRequest.ClientToken req = token /\
       forall req' r', CreateInstance req' r' ∈ evs -> req' = req) /\
    (forall req m2,
       buildCreateInstanceRequest W (announced m) = (Returns (Ok req), m2) ->
       (0 < creationBudget)%nat ->
       exists pre r post,
         evs = pre ++ CreateInstance req r :: post /\
         Forall (fun e => is_CreateInstance e = false) pre) /\
    (forall pre req message post,
       evs =
         pre ++
         CreateInstance req
           (Err (ServerError "IdempotentProcessing" message)) :: post ->
       (length (List.filter is_CreateInstance pre) + 1 < creationBudget)%nat ->
       exists r' post', post = Sleep :: CreateInstance req r' :: post').
Proof.
  intros Hready Hrun.
  assert (Hold : exists evs token,
             log m' = log m ++ evs /\
             List.filter is_TimeOrderedUUID evs = [TimeOrderedUUID token] /\
             forall req r,
               CreateInstance req r ∈ evs ->
               ecs.CreateInstanceRequest.ClientToken req = token /\
               forall req' r', CreateInstance req' r' ∈ evs -> req' = req).
  { destruct (Run_shape _ _ _ _ Hready Hrun)
        as (bevs & B & C & Hl & Hbe & HC & HB).
      set (token := uuid_TimeOrderedUUID W (log (announced m))).
      exists ((UiSay "Creating instance..." :: bevs) ++ B ++ C), token.
      split; [exact Hl|].
      assert (HA : List.filter is_TimeOrderedUUID bevs = [TimeOrderedUUID token]).
      { destruct Hbe as [Hno| |path r Hn]; try reflexivity.
        exfalso. destruct Hready as (_ & Hcf & _). exact (Hno _ Hcf). }
      assert (HnA : forall req r, CreateInstance req r ∉ UiSay "Creating instance..." :: bevs).
      { intros req r Hin. apply BuildEvents_no_create in Hbe.
        apply list_elem_of_In in Hin. destruct Hin as [Hx|Hin]; [discriminate Hx|].
        rewrite List.Forall_forall in Hbe. apply Hbe in Hin. discriminate Hin. }
      assert (HnC : forall req r, CreateInstance req r ∉ C).
      { intros req r Hin. apply after_creation_no_create in HC.
        apply list_elem_of_In in Hin.
        rewrite List.Forall_forall in HC. apply HC in Hin. discriminate Hin. }
      destruct HB as [->|(req0 & r0 & m2 & Hb & Htr & _)].
      - split.
        + rewrite !List.filter_app. cbn [List.filter is_TimeOrderedUUID].
          rewrite HA, (filter_none _ _ (after_creation_no_token _ HC)).
          reflexivity.
        + intros req r Hin. exfalso.
          rewrite !elem_of_app in Hin. destruct Hin as [Hin|[Hin|Hin]].
          * exact (HnA _ _ Hin).
          * inversion Hin.
          * exact (HnC _ _ Hin).
      - split.
        + assert (HnB : Forall (fun e => is_TimeOrderedUUID e = false) B).
          { eapply RetryTrace_no_token; [|exact Htr]. reflexivity. }
          rewrite !List.filter_app. cbn [List.filter is_TimeOrderedUUID].
          rewrite HA, (filter_none _ _ (after_creation_no_token _ HC)),
            (filter_none _ _ HnB).
          reflexivity.
        + assert (Hreq : forall req r,
                     CreateInstance req r ∈
                       (UiSay "Creating instance..." :: bevs) ++ B ++ C ->
                     req = req0).
          { intros req r Hin.
            rewrite !elem_of_app in Hin. destruct Hin as [Hin|[Hin|Hin]].
            - exfalso. exact (HnA _ _ Hin).
            - apply RetryTrace_events in Htr.
              apply list_elem_of_In in Hin.
              rewrite List.Forall_forall in Htr. apply Htr in Hin.
              destruct Hin as [Hs|[r1 Hc]]; [discriminate Hs|].
              injection Hc as -> _. reflexivity.
            - exfalso. exact (HnC _ _ Hin). }
          intros req r Hin. pose proof (Hreq _ _ Hin) as ->. split.
          * apply build_Ok_inv in Hb
              as (c & img & sg & nt & _ & _ & _ & _ &
                  [(_ & vsw & ud & _ & _ & ->)|(_ & _ & ->)]); reflexivity.
          * intros req' r' Hin'. exact (Hreq _ _ Hin'). }
  destruct Hold as (evs & token & Hl & Htok & Hsame).
  exists evs, token.
  split; [exact Hl|]. split; [exact Htok|]. split; [exact Hsame|]. split.
  - intros req m2 Hbuild Hpos.
    destruct (Run_sends_built_request _ _ _ _ _ _ Hready Hrun Hbuild Hpos)
      as (bevs & r & post & Hl' & Hbe).
    rewrite Hl in Hl'. apply app_inv_head in Hl'.
    exists (UiSay "Creating instance..." :: bevs), r, post.
    split; [exact Hl'|].
    constructor; [reflexivity|]. eapply BuildEvents_no_create; exact Hbe.
  - intros pre req message post Hevs Hlt.
    destruct (Run_shape _ _ _ _ Hready Hrun)
      as (bevs & B & C & Hl' & Hbe & HC & HB).
    rewrite Hl in Hl'. apply app_inv_head in Hl'. rewrite Hl' in Hevs.
    assert (HA : Forall (fun e => is_CreateInstance e = false)
                   (UiSay "Creating instance..." :: bevs)).
    { constructor; [reflexivity|]. eapply BuildEvents_no_create; exact Hbe. }
    apply after_creation_no_create in HC.
    assert (Hnx : ~ is_CreateInstance
                      (CreateInstance req
                         (Err (ServerError "IdempotentProcessing" message)))
                    = false) by (simpl; discriminate).
    destruct (split_middle _ _ _ _ _ _ _ HA HC Hnx Hevs)
      as (pre' & post' & HBeq & -> & ->).
    destruct HB as [->|(req0 & r & m2 & Hb & Htr & _)].
    { destruct pre'; discriminate HBeq. }
    assert (Hx : exists r0,
               CreateInstance req
                 (Err (ServerError "IdempotentProcessing" message)) =
               CreateInstance req0 r0).
    { pose proof (RetryTrace_events _ _ _ _ _ Htr) as Hev.
      rewrite HBeq in Hev. apply Forall_app in Hev as [_ Hev].
      apply Forall_cons in Hev as [[Hs|Hc] _]; [discriminate Hs|exact Hc]. }
    destruct Hx as [r0 Hx]. injection Hx as <- <-.
    assert (Hcount : length (List.filter is_CreateInstance pre') =
                     length (List.filter is_CreateInstance
                               ((UiSay "Creating instance..." :: bevs) ++ pre'))).
    { rewrite List.filter_app, (filter_none _ _ HA). reflexivity. }
    rewrite <- Hcount in Hlt.
    destruct (RetryTrace_resend (CreateInstance req) createEval _ _ _
                is_CreateInstance
                ltac:(intros r1 r2 Hc; injection Hc; auto)
                ltac:(intros r1; discriminate)
                eq_refl ltac:(reflexivity)
                Htr _ _ _ HBeq eq_refl Hlt)
      as (r1 & post'' & ->).
    exists r1, (post'' ++ C). reflexivity.
Qed.

(** C3. A run that answers [ActionContinue] has, after the creation call
    succeeded, polled the instance until the stopped status was seen,
    then described the instance by its id, and has stored the first
    described instance under the key instance and the instance id under
    the key instance_id. *)
Theorem Run_success_publishes (m m' : Machine) :
  Run W m = (Returns multistep.ActionContinue, m') ->
  exists config req resp instances i pre polls,
    let instanceId := ecs.CreateInstanceResponse.InstanceId resp in
    let describeRequest := describeRequestOf config instanceId in
    state m !! "config" = Some (VConfig config) /\
    log m' =
      log m ++ pre ++
      CreateInstance req (Ok resp) ::
      polls ++
      [InstanceStatus (Step.RegionId (self m')) instanceId
         InstanceStatusStopped;
       DescribeInstances describeRequest (Ok instances);
       UiMessage ("Created instance: " +:+ instanceId)] /\
    Forall (fun e => e = Sleep \/
                     exists st, e = InstanceStatus (Step.RegionId (self m'))
                                      instanceId st) polls /\
    ecs.DescribeInstancesRequest.InstanceIds describeRequest =
      "[" +:+ dquote +:+ instanceId +:+ dquote +:+ "]" /\
    head (ecs.DescribeInstancesResponse.Instances instances) = Some i /\
    Step.instance (self m') = Some i /\
    state m' =
      <["instance_id" := VString instanceId]>
        (<["instance" := VInstance i]> (state m)).
Proof.
  intros Hrun. apply Run_behaviour in Hrun.
  inversion Hrun
    as [ | | | | | |
       | config req m2 cevs resp pevs u instances i rest
           Hready Hb Htr Hp Hins Ho Hm ].
  subst m'. clear Hrun.
  destruct Hready as (_ & Hcf & _).
  apply RetryTrace_Ok_last in Htr as [cpre ->].
  pose proof (PollTrace_events _ _ _ _ _ _ Hp) as Hpev.
  apply PollTrace_Ok_last in Hp as [ppre ->].
  apply Forall_app in Hpev as [Hpev _].
  apply build_frame in Hb as (Hst & _ & bevs & Hl & _).
  exists config, req, resp, instances, i,
    (UiSay "Creating instance..." :: bevs ++ cpre), ppre.
  cbn zeta. cbn [self state log].
  split; [exact Hcf|]. split.
  { rewrite Hl. unfold announced, extend.
    cbn [log Step.RegionId Step.set_instance].
    rewrite <- ?app_assoc. cbn [app]. rewrite <- ?app_assoc. reflexivity. }
  split; [exact Hpev|]. split; [reflexivity|].
  split; [rewrite Hins; reflexivity|]. split; [reflexivity|].
  rewrite Hst. reflexivity.
Qed.

Lemma Run_halt_keeps_instance (m m' : Machine) :
  Run W m = (Returns multistep.ActionHalt, m') ->
  Step.instance (self m') = Step.instance (self m).
Proof.
  intros Hrun. apply Run_behaviour in Hrun.
  inversion Hrun
    as [ | | config err m2 Hready Hb
       | config req m2 cevs err Hready Hb Htr
       | config req m2 cevs resp pevs err Hready Hb Htr Hp
       | config req m2 cevs resp pevs u err Hready Hb Htr Hp | | ];
    subst; cbn [halted extend self];
    apply build_frame in Hb as (_ & Hi & _); exact Hi.
Qed.

Lemma Cleanup_noop (m : Machine) :
  Step.instance (self m) = None -> Cleanup W m = (Returns tt, m).
Proof.
  intros Hi. unfold Cleanup. rewrite bind_get_self, Hi. reflexivity.
Qed.

(** C4. When a run halts although its creation request succeeded, the
    step object still records no instance, so a later [Cleanup] on that
    step object returns at once: it sends no deletion request, whatever
    the state bag and the log are by then. *)
Theorem Run_halt_after_creation_leaks (m m' : Machine)
  (pre post : list Event) (req : ecs.CreateInstanceRequest.t)
  (resp : ecs.CreateInstanceResponse.t) :
  Step.instance (self m) = None ->
  Run W m = (Returns multistep.ActionHalt, m') ->
  log m' = log m ++ pre ++ CreateInstance req (Ok resp) :: post ->
  Step.instance (self m') = None /\
  forall later,
    self later = self m' -> Cleanup W later = (Returns tt, later).
Proof.
  intros Hnil Hrun _.
  pose proof (Run_halt_keeps_instance _ _ Hrun) as Hkeep.
  rewrite Hnil in Hkeep. split; [exact Hkeep|].
  intros later Hself. apply Cleanup_noop. rewrite Hself. exact Hkeep.
Qed.

Lemma extend_nil (m : Machine) : extend m [] = m.
Proof. destruct m. unfold extend. cbn. rewrite app_nil_r. reflexivity. Qed.

Lemma RetryTrace_no_UiError {A} (call : result A -> Event) eval n evs r :
  (forall r0, is_UiError (call r0) = false) ->
  RetryTrace call eval n evs r ->
  Forall (fun e => is_UiError e = false) evs.
Proof.
  intros Hcall Htr. apply RetryTrace_events in Htr.
  eapply Forall_impl; [exact Htr|].
  intros e [->|[r0 ->]]; [reflexivity|apply Hcall].
Qed.

(** C2. [Cleanup] does nothing when the step recorded no instance. When
    it recorded one, [Cleanup] returns normally whatever the deletion
    attempts answered: the step object and the state bag are as before
    (no error is stored), the UI gets no error line, and a deletion that
    failed is reported by one ordinary UI line. *)
Theorem Cleanup_never_escalates (m : Machine) (config : Config.t) :
  Step.instance (self m) = None \/ bag_ready (state m) config ->
  exists evs,
    Cleanup W m = (Returns tt, extend m evs) /\
    Forall (fun e => is_UiError e = false) evs /\
    match Step.instance (self m) with
    | None => evs = []
    | Some i =>
        exists r devs,
          RetryTrace (DeleteInstance (deleteRequestOf config i)) deleteEval
            (deletionBudget config) devs r /\
          evs = UiSay (cleanUpMessageText (state m) "instance")
                :: devs ++
                   match r with
                   | Err err =>
                       [UiSay ("Failed to clean up instance " +:+
                               ecs.Instance.InstanceId i +:+ ": " +:+
                               Error err)]
                   | Ok _ => []
                   end
    end.
Proof.
  intros Hpre. destruct (Step.instance (self m)) as [i|] eqn:Hi.
  - destruct Hpre as [Hx|Hready]; [discriminate Hx|].
    destruct (Cleanup_behaviour m i config Hi Hready)
      as (r & devs & _ & Htr & Hrun).
    eexists. split; [exact Hrun|]. split.
    + constructor; [reflexivity|]. apply Forall_app. split.
      * eapply RetryTrace_no_UiError; [|exact Htr]. reflexivity.
      * destruct r; repeat constructor.
    + exists r, devs. split; [exact Htr|]. reflexivity.
  - exists []. rewrite extend_nil. split; [apply Cleanup_noop; exact Hi|].
    split; [constructor|reflexivity].
Qed.



Lemma getUserData_Ok_inv (m m' : Machine) (userData : string) :
  getUserData W m = (Returns (Ok userData), m') ->
  self m' = self m /\
  exists resolved,
    resolveUserData (self m) (log m) = Ok resolved /\
    userData =
      if negb (String.eqb resolved "") then base64.EncodeToString resolved
      else resolved.
Proof.
  rewrite getUserData_eq. unfold resolveUserData.
  destruct (negb (String.eqb (Step.UserDataFile (self m)) "")); cbn zeta.
  - destruct (ioutil_ReadFile W (log m) (Step.UserDataFile (self m)))
      as [data|err]; intros Heq; [|discriminate Heq].
    injection Heq as <- <-. split; [reflexivity|]. eauto.
  - intros Heq. injection Heq as <- <-. split; [reflexivity|]. eauto.
Qed.

(** C5. In private-network mode the user-data of the creation request is
    the resolved user-data (the contents of the user-data file when a path
    is set, else the inline string), base64-encoded when it is not empty
    and left as the empty string when it is. *)
Theorem build_userdata_encoding (m m' : Machine)
  (req : ecs.CreateInstanceRequest.t) :
  state m !! "networktype" = Some (VInstanceNetWork InstanceNetworkVpc) ->
  buildCreateInstanceRequest W m = (Returns (Ok req), m') ->
  exists resolved,
    resolveUserData (self m) (log (afterToken m)) = Ok resolved /\
    (resolved <> "" ->
     ecs.CreateInstanceRequest.UserData req =
       base64.EncodeToString resolved /\
     ecs.CreateInstanceRequest.UserData req <> "") /\
    (resolved = "" -> ecs.CreateInstanceRequest.UserData req = "").
Proof.
  intros Hnt Hb.
  apply build_Ok_inv in Hb
    as (c & img & sg & nt & _ & _ & _ & Hnt' &
        [(_ & vsw & ud & _ & Hu & ->)|(Hne & _ & _)]).
  - apply getUserData_Ok_inv in Hu as (_ & resolved & Hres & ->).
    exists resolved. split; [exact Hres|].
    cbn [ecs.CreateInstanceRequest.UserData assembleRequest].
    destruct (String.eqb_spec resolved "") as [->|Hne]; cbn [negb].
    + split; [intros Hx; contradiction|reflexivity].
    + split; [|intros Hx; contradiction].
      intros _. split; [reflexivity|].
      apply EncodeToString_nonempty. exact Hne.
  - exfalso. rewrite Hnt in Hnt'. injection Hnt' as <-. contradiction.
Qed.


(** C7. The request has one data-disk entry per configured data disk, in
    order, and the entry's encryption field is empty (not set) when the
    disk's setting is unset and the text of the boolean when it is true or
    false. *)
Theorem build_data_disk_encryption (m m' : Machine)
  (req : ecs.CreateInstanceRequest.t) (config : Config.t) :
  state m !! "config" = Some (VConfig config) ->
  buildCreateInstanceRequest W m = (Returns (Ok req), m') ->
  Forall2
    (fun imageDisk dataDisk =>
       ecs.CreateInstanceDataDisk.Encrypted dataDisk =
       encryptedField (ApsaraStackDiskDevice.Encrypted imageDisk))
    (Config.ECSImagesDiskMappings config)
    (ecs.CreateInstanceRequest.DataDisk req).
Proof.
  intros Hcf Hb.
  apply build_Ok_inv in Hb
    as (c & img & sg & nt & Hcf' & _ & _ & _ &
        [(_ & vsw & ud & _ & _ & ->)|(_ & _ & ->)]);
    rewrite Hcf in Hcf'; injection Hcf' as <-;
    cbn [ecs.CreateInstanceRequest.DataDisk assembleRequest];
    induction (Config.ECSImagesDiskMappings config) as [|d ds IH];
    cbn [map]; constructor; try exact IH;
    destruct d as [? ? ? ? ? ? ? []]; reflexivity.
Qed.

(** C10. In classic mode the request carries no user-data, whatever the
    step configures, and building the request reads no file. *)
Theorem build_classic_ignores_userdata (m m' : Machine)
  (o : Outcome (result ecs.CreateInstanceRequest.t))
  (networkType : InstanceNetWork) :
  state m !! "networktype" = Some (VInstanceNetWork networkType) ->
  networkType <> InstanceNetworkVpc ->
  buildCreateInstanceRequest W m = (o, m') ->
  (forall req,
     o = Returns (Ok req) -> ecs.CreateInstanceRequest.UserData req = "") /\
  exists evs,
    log m' = log m ++ evs /\ Forall (fun e => is_ReadFile e = false) evs.
Proof.
  intros Hnt Hne Hb. split.
  - intros req ->.
    apply build_Ok_inv in Hb
      as (c & img & sg & nt & _ & _ & _ & Hnt' &
          [(Heq & _)|(_ & _ & ->)]).
    + rewrite Hnt in Hnt'. injection Hnt' as <-. contradiction.
    + reflexivity.
  - apply build_frame in Hb as (_ & _ & bevs & Hl & Hbe).
    exists bevs. split; [exact Hl|].
    destruct Hbe as [Hno| |path r Hvpc]; repeat constructor.
    exfalso. rewrite Hnt in Hvpc. injection Hvpc as Hx. contradiction.
Qed.

(** ** Further properties of the step's methods *)

(** X1. [getUserData] never panics and changes neither the step object
    nor the state bag; it reads the user-data file exactly when a path is
    set, and it fails exactly when that read fails, with the read's
    error. *)
Theorem getUserData_outcome (m : Machine) :
  let path := Step.UserDataFile (self m) in
  exists r,
    getUserData W m =
      (Returns r,
       extend m
         (if String.eqb path "" then []
          else [ReadFile path (ioutil_ReadFile W (log m) path)])) /\
    forall err,
      r = Err err <->
      path <> "" /\ ioutil_ReadFile W (log m) path = Err err.
Proof.
  intros path. rewrite getUserData_eq. fold path.
  destruct (String.eqb_spec path "") as [Hp|Hp]; cbn [negb].
  - eexists. rewrite extend_nil. split; [reflexivity|].
    intros err. split; [intros Hx; discriminate Hx|].
    intros [Hne _]. contradiction.
  - cbn zeta. destruct (ioutil_ReadFile W (log m) path) as [data|e].
    + eexists. split; [reflexivity|].
      intros err. split; [intros Hx; discriminate Hx|].
      intros [_ Hx]. discriminate Hx.
    + eexists. split; [reflexivity|].
      intros err. split.
      * intros Hx. injection Hx as ->. split; [exact Hp|reflexivity].
      * intros [_ Hx]. exact Hx.
Qed.

Lemma build_read_error (m m' : Machine)
  (o : Outcome (result ecs.CreateInstanceRequest.t))
  (bevs : list Event) (path : string) (err : error) :
  buildCreateInstanceRequest W m = (o, m') ->
  log m' = log m ++ bevs ->
  ReadFile path (Err err) ∈ bevs ->
  o = Returns (Err err).
Proof.
  unfold buildCreateInstanceRequest. unfold_ops. intros Hb Hl Hin.
  assert (Hnone : forall o1, (o1, m) = (o, m') -> o = Returns (Err err)).
  { intros o1 Heq. injection Heq as <- <-. exfalso.
    rewrite <- (app_nil_r (log m)) in Hl at 1.
    apply app_inv_head in Hl. subst bevs. inversion Hin. }
  assert (Htok : forall o1, (o1, afterToken m) = (o, m') ->
                            o = Returns (Err err)).
  { intros o1 Heq. injection Heq as <- <-. exfalso.
    cbn [log afterToken] in Hl. apply app_inv_head in Hl. subst bevs.
    apply list_elem_of_singleton in Hin. discriminate Hin. }
  destruct (state m !! "config") as [[]|] eqn:Hc; simpl in Hb;
    try (eapply Hnone; exact Hb).
  fold (afterToken m) in Hb.
  destruct (state m !! "source_image") as [[]|] eqn:Hi; simpl in Hb;
    try (eapply Htok; exact Hb).
  destruct (state m !! "securitygroupid") as [[]|] eqn:Hs; simpl in Hb;
    try (eapply Htok; exact Hb).
  destruct (state m !! "networktype") as [[]|] eqn:Hn; simpl in Hb;
    try (eapply Htok; exact Hb).
  destruct (String.eqb_spec n InstanceNetworkVpc) as [Heq|Hne]; simpl in Hb.
  - destruct (state m !! "vswitchid") as [[]|] eqn:Hv; simpl in Hb;
      try (eapply Htok; exact Hb).
    rewrite getUserData_eq in Hb. simpl in Hb.
    destruct (negb (String.eqb (Step.UserDataFile (self m)) "")); simpl in Hb.
    + destruct (ioutil_ReadFile W _ (Step.UserDataFile (self m))) eqn:Hr;
        simpl in Hb; injection Hb as <- <-; cbn [log] in Hl;
        rewrite <- app_assoc in Hl; apply app_inv_head in Hl; subst bevs;
        cbn [app] in Hin; apply elem_of_cons in Hin as [Hx|Hin];
        try discriminate Hx;
        apply list_elem_of_singleton in Hin.
      * discriminate Hin.
      * injection Hin as _ ->. reflexivity.
    + eapply Htok; exact Hb.
  - exfalso.
    destruct (String.eqb (Step.InternetChargeType (self m)) "");
      simpl in Hb;
      match type of Hb with context [Z.eqb ?a ?b] => destruct (Z.eqb a b) end;
      simpl in Hb; injection Hb as <- <-; cbn [log] in Hl;
      apply app_inv_head in Hl; subst bevs;
      apply list_elem_of_singleton in Hin; discriminate Hin.
Qed.

Lemma BuildEvents_no_delete (m : Machine) (bevs : list Event) :
  BuildEvents m bevs -> Forall (fun e => is_DeleteInstance e = false) bevs.
Proof. destruct 1; repeat constructor. Qed.

Lemma RetryTrace_create_only (req : ecs.CreateInstanceRequest.t) eval n evs r
  (f : Event -> bool) :
  f Sleep = false ->
  (forall r0, f (CreateInstance req r0) = false) ->
  RetryTrace (CreateInstance req) eval n evs r ->
  Forall (fun e => f e = false) evs.
Proof.
  intros Hs Hc Htr. apply RetryTrace_events in Htr.
  eapply Forall_impl; [exact Htr|].
  intros e [->|[r0 ->]]; [exact Hs|apply Hc].
Qed.

Lemma after_creation_only (f : Event -> bool) (C : list Event) :
  (forall e, after_creation e = true -> f e = false) ->
  Forall (fun e => after_creation e = true) C ->
  Forall (fun e => f e = false) C.
Proof.
  intros Hf HC. eapply Forall_impl; [exact HC|]. exact Hf.
Qed.

(** X2. When reading the user-data file fails, the run halts without
    sending any creation request: nothing in its log is a creation
    call. *)
Theorem Run_unreadable_userdata_halts (m m' : Machine)
  (o : Outcome multistep.StepAction) (evs : list Event)
  (path : string) (err : error) :
  Run W m = (o, m') ->
  log m' = log m ++ evs ->
  ReadFile path (Err err) ∈ evs ->
  o = Returns multistep.ActionHalt /\
  Forall (fun e => is_CreateInstance e = false) evs.
Proof.
  intros Hrun Hlog Hin.
  assert (Hsay : forall bevs,
             ReadFile path (Err err) ∈ UiSay "Creating instance..." :: bevs ->
             ReadFile path (Err err) ∈ bevs).
  { intros bevs Hx. apply elem_of_cons in Hx as [Hx|Hx];
      [discriminate Hx|exact Hx]. }
  assert (Hbuild : forall ob m2 rest,
             buildCreateInstanceRequest W (announced m) = (ob, m2) ->
             log m' = log m2 ++ rest ->
             Forall (fun e => is_ReadFile e = false) rest ->
             ob = Returns (Err err)).
  { intros ob m2 rest Hb Hl Hrest.
    pose proof Hb as Hf. apply build_frame in Hf as (_ & _ & bevs & Hbl & _).
    eapply build_read_error; [exact Hb|exact Hbl|].
    rewrite Hbl in Hl. unfold announced, extend in Hl. cbn [log] in Hl.
    rewrite Hlog, <- !app_assoc in Hl. apply app_inv_head in Hl.
    subst evs. cbn [app] in Hin. apply Hsay in Hin.
    apply elem_of_app in Hin as [Hin|Hin]; [exact Hin|].
    exfalso. apply list_elem_of_In in Hin.
    rewrite List.Forall_forall in Hrest. apply Hrest in Hin.
    discriminate Hin. }
  assert (Hpoll : forall region id st n pevs rp,
             PollTrace region id st n pevs rp ->
             Forall (fun e => is_ReadFile e = false) pevs).
  { intros region id st n pevs rp Hp.
    eapply after_creation_only; [|eapply PollTrace_after_creation; exact Hp].
    intros [] He; try reflexivity; discriminate He. }
  assert (Hcre : forall req n cevs r,
             RetryTrace (CreateInstance req) createEval n cevs r ->
             Forall (fun e => is_ReadFile e = false) cevs).
  { intros req n cevs r Htr.
    eapply RetryTrace_create_only; [| |exact Htr]; reflexivity. }
  apply Run_behaviour in Hrun.
  destruct Hrun as
    [ why Hno
    | config' why m2 _ Hb
    | config' e m2 _ Hb
    | config' req m2 cevs e _ Hb Htr
    | config' req m2 cevs resp pevs e _ Hb Htr Hp
    | config' req m2 cevs resp pevs u e _ Hb Htr Hp
    | config' req m2 cevs resp pevs u instances why _ Hb Htr Hp Hins
    | config' req m2 cevs resp pevs u instances i rest _ Hb Htr Hp Hins ].
  - exfalso. rewrite <- (app_nil_r (log m)) in Hlog at 1.
    apply app_inv_head in Hlog. subst evs. inversion Hin.
  - exfalso. specialize (Hbuild _ _ [] Hb).
    rewrite app_nil_r in Hbuild. discriminate (Hbuild eq_refl (List.Forall_nil _)).
  - split; [reflexivity|].
    pose proof Hb as Hf. apply build_frame in Hf as (_ & _ & bevs & Hbl & Hbe).
    unfold halted in Hlog. cbn [log] in Hlog. rewrite Hbl in Hlog.
    unfold announced, extend in Hlog. cbn [log] in Hlog.
    rewrite <- !app_assoc in Hlog. apply app_inv_head in Hlog. subst evs.
    cbn [app]. constructor; [reflexivity|]. apply Forall_app. split.
    + eapply BuildEvents_no_create; exact Hbe.
    + repeat constructor.
  - exfalso.
    assert (Hx : Returns (Ok req) = Returns (Err err)).
    { eapply (Hbuild _ _ _ Hb);
        [unfold halted, extend; cbn [log]; rewrite <- ?app_assoc; reflexivity|].
      repeat (apply Forall_app; split);
        first [eapply Hcre; exact Htr|eapply Hpoll; exact Hp
              |repeat constructor]. }
    discriminate Hx.
  - exfalso.
    assert (Hx : Returns (Ok req) = Returns (Err err)).
    { eapply (Hbuild _ _ _ Hb);
        [unfold halted, extend; cbn [log]; rewrite <- ?app_assoc; reflexivity|].
      repeat (apply Forall_app; split);
        first [eapply Hcre; exact Htr|eapply Hpoll; exact Hp
              |repeat constructor]. }
    discriminate Hx.
  - exfalso.
    assert (Hx : Returns (Ok req) = Returns (Err err)).
    { eapply (Hbuild _ _ _ Hb);
        [unfold halted, extend; cbn [log]; rewrite <- ?app_assoc; reflexivity|].
      repeat (apply Forall_app; split);
        first [eapply Hcre; exact Htr|eapply Hpoll; exact Hp
              |repeat constructor]. }
    discriminate Hx.
  - exfalso.
    assert (Hx : Returns (Ok req) = Returns (Err err)).
    { eapply (Hbuild _ _ _ Hb);
        [unfold halted, extend; cbn [log]; rewrite <- ?app_assoc; reflexivity|].
      repeat (apply Forall_app; split);
        first [eapply Hcre; exact Htr|eapply Hpoll; exact Hp
              |repeat constructor]. }
    discriminate Hx.
  - exfalso.
    assert (Hx : Returns (Ok req) = Returns (Err err)).
    { eapply (Hbuild _ _ _ Hb);
        [unfold halted, extend; cbn [log]; rewrite <- ?app_assoc; reflexivity|].
      repeat (apply Forall_app; split);
        first [eapply Hcre; exact Htr|eapply Hpoll; exact Hp
              |repeat constructor]. }
    discriminate Hx.
Qed.

(** X3. The password of the request is the SSH password when one is
    configured, and the WinRM password otherwise. *)
Theorem build_password (m m' : Machine)
  (req : ecs.CreateInstanceRequest.t) (config : Config.t) :
  state m !! "config" = Some (VConfig config) ->
  buildCreateInstanceRequest W m = (Returns (Ok req), m') ->
  ecs.CreateInstanceRequest.Password req =
    if String.eqb (Config.SSHPassword config) ""
    then Config.WinRMPassword config
    else Config.SSHPassword config.
Proof.
  intros Hcf Hb.
  apply build_Ok_inv in Hb
    as (c & img & sg & nt & Hcf' & _ & _ & _ &
        [(_ & vsw & ud & _ & _ & ->)|(_ & _ & ->)]);
    rewrite Hcf in Hcf'; injection Hcf' as <-;
    cbn [ecs.CreateInstanceRequest.Password assembleRequest];
    destruct (String.eqb_spec (Config.SSHPassword config) "") as [Hs|Hs];
    destruct (String.eqb_spec (Config.WinRMPassword config) "") as [Hw|Hw];
    cbn [andb negb]; congruence.
Qed.

Lemma build_keeps_IOOptimized (m m' : Machine)
  (req : ecs.CreateInstanceRequest.t) :
  buildCreateInstanceRequest W m = (Returns (Ok req), m') ->
  Step.IOOptimized (self m') = Step.IOOptimized (self m) /\
  ecs.CreateInstanceRequest.IoOptimized req =
    ioOptimizedField (Step.IOOptimized (self m')).
Proof.
  intros Hb.
  apply build_Ok_inv in Hb
    as (c & img & sg & nt & _ & _ & _ & _ &
        [(_ & vsw & ud & _ & Hu & ->)|(_ & -> & ->)]).
  - apply getUserData_Ok_inv in Hu as (Hself & _). rewrite Hself.
    cbn [self afterToken]. split; [reflexivity|].
    cbn [ecs.CreateInstanceRequest.IoOptimized assembleRequest].
    destruct (Step.IOOptimized (self m)); reflexivity.
  - cbn [self]. split.
    + unfold classicDefaults.
      destruct (String.eqb (Step.InternetChargeType (self m)) "");
        cbn [Step.InternetMaxBandwidthOut Step.set_InternetChargeType];
        match goal with |- context [Z.eqb ?a ?b] => destruct (Z.eqb a b) end;
        reflexivity.
    + cbn [ecs.CreateInstanceRequest.IoOptimized assembleRequest].
      destruct (Step.IOOptimized (classicDefaults (self m))); reflexivity.
Qed.

(** X4. The I/O-optimisation field of the request follows the step's
    tri-state setting: the optimized constant when it is true, the
    not-optimized constant when it is false, and no value when it is
    unset. *)
Theorem build_io_optimized (m m' : Machine)
  (req : ecs.CreateInstanceRequest.t) :
  buildCreateInstanceRequest W m = (Returns (Ok req), m') ->
  ecs.CreateInstanceRequest.IoOptimized req =
    ioOptimizedField (Step.IOOptimized (self m)).
Proof.
  intros Hb. apply build_keeps_IOOptimized in Hb as [Hk ->].
  rewrite Hk. reflexivity.
Qed.

Lemma classicDefaults_set (s : stepCreateApsaraStackInstance) :
  Step.InternetChargeType (classicDefaults s) <> "" /\
  Step.InternetMaxBandwidthOut (classicDefaults s) <> 0 /\
  classicDefaults (classicDefaults s) = classicDefaults s.
Proof.
  unfold classicDefaults.
  destruct (String.eqb_spec (Step.InternetChargeType s) "") as [Hc|Hc];
    cbn [Step.InternetMaxBandwidthOut Step.set_InternetChargeType];
    destruct (Z.eqb_spec (Step.InternetMaxBandwidthOut s) 0) as [Hb|Hb];
    cbn [Step.InternetChargeType Step.InternetMaxBandwidthOut
         Step.set_InternetChargeType Step.set_InternetMaxBandwidthOut
         String.eqb Ascii.eqb Bool.eqb Z.eqb];
    repeat match goal with
    | |- context [String.eqb ?a ?b] =>
        destruct (String.eqb_spec a b); try congruence
    | |- context [Z.eqb ?a ?b] =>
        destruct (Z.eqb_spec a b); try congruence
    end;
    (split; [try discriminate; assumption|]);
    (split; [try discriminate; assumption|]); reflexivity.
Qed.

(** X5. In classic mode the defaults are written into the step object,
    not only into the request: after a successful build the step's charge
    type is not empty and its bandwidth is not 0, the request carries the
    step's values, and a second build on the same step leaves the step as
    it is and sends the same two values. *)
Theorem build_classic_defaults_persist (m m' m'' : Machine)
  (req req' : ecs.CreateInstanceRequest.t) (networkType : InstanceNetWork) :
  state m !! "networktype" = Some (VInstanceNetWork networkType) ->
  networkType <> InstanceNetworkVpc ->
  buildCreateInstanceRequest W m = (Returns (Ok req), m') ->
  buildCreateInstanceRequest W m' = (Returns (Ok req'), m'') ->
  Step.InternetChargeType (self m') <> "" /\
  Step.InternetMaxBandwidthOut (self m') <> 0 /\
  ecs.CreateInstanceRequest.InternetChargeType req =
    Step.InternetChargeType (self m') /\
  ecs.CreateInstanceRequest.InternetMaxBandwidthOut req =
    convertNumber (Step.InternetMaxBandwidthOut (self m')) /\
  self m'' = self m' /\
  ecs.CreateInstanceRequest.InternetChargeType req' =
    ecs.CreateInstanceRequest.InternetChargeType req /\
  ecs.CreateInstanceRequest.InternetMaxBandwidthOut req' =
    ecs.CreateInstanceRequest.InternetMaxBandwidthOut req.
Proof.
  intros Hnt Hne Hb Hb'.
  apply build_Ok_inv in Hb
    as (c & img & sg & nt & _ & _ & _ & Hnt1 &
        [(Heq & _)|(_ & -> & ->)]).
  { rewrite Hnt in Hnt1. injection Hnt1 as <-. contradiction. }
  apply build_Ok_inv in Hb'
    as (c' & img' & sg' & nt' & _ & _ & _ & Hnt2 &
        [(Heq & _)|(_ & -> & ->)]).
  { cbn [state] in Hnt2. rewrite Hnt in Hnt2. injection Hnt2 as <-.
    contradiction. }
  cbn [self ecs.CreateInstanceRequest.InternetChargeType
       ecs.CreateInstanceRequest.InternetMaxBandwidthOut assembleRequest].
  destruct (classicDefaults_set (self m)) as (Hc & Hbw & Hidem).
  rewrite Hidem. repeat split; assumption || reflexivity.
Qed.

(** X6. Building the request, however it ends, leaves the state bag and
    the recorded instance as they were and makes no vendor call: its only
    outward calls are the token generator and at most one file read, at
    most two calls in all. *)
Theorem build_makes_no_vendor_call (m m' : Machine)
  (o : Outcome (result ecs.CreateInstanceRequest.t)) :
  buildCreateInstanceRequest W m = (o, m') ->
  state m' = state m /\
  Step.instance (self m') = Step.instance (self m) /\
  exists evs,
    log m' = log m ++ evs /\
    (length evs <= 2)%nat /\
    Forall (fun e => is_TimeOrderedUUID e = true \/ is_ReadFile e = true) evs.
Proof.
  intros Hb. apply build_frame in Hb as (Hst & Hi & bevs & Hl & Hbe).
  split; [exact Hst|]. split; [exact Hi|].
  exists bevs. split; [exact Hl|].
  destruct Hbe as [Hno| |path r Hvpc]; cbn [length]; (split; [lia|]).
  - constructor.
  - constructor; [left; reflexivity|constructor].
  - constructor; [left; reflexivity|].
    constructor; [right; reflexivity|constructor].
Qed.

Lemma build_classic_eval (m : Machine) (config : Config.t)
  (sourceImage : ecs.Image.t) (securityGroupId : string)
  (networkType : InstanceNetWork) :
  state m !! "config" = Some (VConfig config) ->
  state m !! "source_image" = Some (VImage sourceImage) ->
  state m !! "securitygroupid" = Some (VString securityGroupId) ->
  state m !! "networktype" = Some (VInstanceNetWork networkType) ->
  networkType <> InstanceNetworkVpc ->
  buildCreateInstanceRequest W m =
    (Returns
       (Ok (assembleRequest config (uuid_TimeOrderedUUID W (log m))
              sourceImage securityGroupId "" ""
              (classicDefaults (self m)))),
     mkMachine (classicDefaults (self m)) (state m) (log (afterToken m))).
Proof.
  intros Hc Hi Hs Hn Hne.
  unfold buildCreateInstanceRequest. unfold_ops.
  rewrite Hc. simpl. rewrite Hi. simpl. rewrite Hs. simpl. rewrite Hn. simpl.
  destruct (String.eqb_spec networkType InstanceNetworkVpc) as [Hx|_];
    [contradiction|].
  simpl. unfold classicDefaults.
  destruct (String.eqb (Step.InternetChargeType (self m)) ""); simpl;
    match goal with |- context [Z.eqb ?a ?b] => destruct (Z.eqb a b) end;
    reflexivity.
Qed.

(** X7. In classic mode the build cannot fail once the configuration, the
    source image, the security group and the network type are in the bag:
    it needs no vswitch id, reads no file, and returns a request without
    vswitch id. *)
Theorem build_classic_succeeds (m : Machine) (config : Config.t)
  (sourceImage : ecs.Image.t) (securityGroupId : string)
  (networkType : InstanceNetWork) :
  state m !! "config" = Some (VConfig config) ->
  state m !! "source_image" = Some (VImage sourceImage) ->
  state m !! "securitygroupid" = Some (VString securityGroupId) ->
  state m !! "networktype" = Some (VInstanceNetWork networkType) ->
  networkType <> InstanceNetworkVpc ->
  exists req m',
    buildCreateInstanceRequest W m = (Returns (Ok req), m') /\
    ecs.CreateInstanceRequest.VSwitchId req = "" /\
    ecs.CreateInstanceRequest.ImageId req = ecs.Image.ImageId sourceImage /\
    ecs.CreateInstanceRequest.SecurityGroupId req = securityGroupId /\
    log m' = log m ++ [TimeOrderedUUID (uuid_TimeOrderedUUID W (log m))].
Proof.
  intros Hc Hi Hs Hn Hne.
  eexists _, _. split.
  - eapply build_classic_eval; eassumption.
  - repeat split; reflexivity.
Qed.

(** X8. In private-network mode a bag without a vswitch id makes the
    build panic before the user-data is looked at: the token has been
    drawn, no file has been read, and step and bag are untouched. *)
Theorem build_vpc_needs_vswitch (m : Machine) (config : Config.t)
  (sourceImage : ecs.Image.t) (securityGroupId : string) :
  state m !! "config" = Some (VConfig config) ->
  state m !! "source_image" = Some (VImage sourceImage) ->
  state m !! "securitygroupid" = Some (VString securityGroupId) ->
  state m !! "networktype" = Some (VInstanceNetWork InstanceNetworkVpc) ->
  state m !! "vswitchid" = None ->
  exists why,
    buildCreateInstanceRequest W m = (Panics why, afterToken m).
Proof.
  intros Hc Hi Hs Hn Hv.
  unfold buildCreateInstanceRequest. unfold_ops.
  rewrite Hc. simpl. rewrite Hi. simpl. rewrite Hs. simpl. rewrite Hn. simpl.
  rewrite String.eqb_refl. simpl. rewrite Hv. simpl.
  eexists. reflexivity.
Qed.

(** X9. A run that finds the client, the configuration or the UI missing
    from the state bag (or of another type) panics at once: nothing is
    logged, not even the first UI line, and step and bag are untouched. *)
Theorem Run_missing_bag_panics (m : Machine) :
  (forall config, ~ bag_ready (state m) config) ->
  exists why, Run W m = (Panics why, m).
Proof.
  intros Hno. destruct (Run W m) as [o m'] eqn:Hrun.
  apply Run_behaviour in Hrun.
  destruct Hrun as [why _|c ? ? Hr|c ? ? Hr|c ? ? ? ? Hr|c ? ? ? ? ? ? Hr
                   |c ? ? ? ? ? ? ? Hr|c ? ? ? ? ? ? ? ? Hr
                   |c ? ? ? ? ? ? ? ? ? Hr];
    try (exfalso; exact (Hno c Hr)).
  exists why. reflexivity.
Qed.

Lemma PollTrace_only (f : Event -> bool) regionId instanceId expected n evs r :
  f Sleep = false ->
  (forall st, f (InstanceStatus regionId instanceId st) = false) ->
  PollTrace regionId instanceId expected n evs r ->
  Forall (fun e => f e = false) evs.
Proof.
  intros Hs Hc Htr. apply PollTrace_events in Htr.
  eapply Forall_impl; [exact Htr|].
  intros e [->|[st ->]]; [exact Hs|apply Hc].
Qed.

Lemma BuildEvents_only (f : Event -> bool) (m : Machine) (bevs : list Event) :
  (forall t, f (TimeOrderedUUID t) = false) ->
  (forall p r, f (ReadFile p r) = false) ->
  BuildEvents m bevs -> Forall (fun e => f e = false) bevs.
Proof. intros Ht Hr. destruct 1; repeat constructor; auto. Qed.

Lemma announced_log (m m2 : Machine)
  (ob : Outcome (result ecs.CreateInstanceRequest.t)) :
  buildCreateInstanceRequest W (announced m) = (ob, m2) ->
  state m2 = state m /\
  Step.instance (self m2) = Step.instance (self m) /\
  exists bevs,
    log m2 = log m ++ UiSay "Creating instance..." :: bevs /\
    BuildEvents (announced m) bevs.
Proof.
  intros Hb. apply build_frame in Hb as (Hst & Hi & bevs & Hl & Hbe).
  split; [exact Hst|]. split; [exact Hi|].
  exists bevs. split; [|exact Hbe]. rewrite Hl. unfold announced, extend.
  cbn [log]. rewrite <- app_assoc. reflexivity.
Qed.

Lemma describe_position (A pre post : list Event) (D U x : Event) :
  Forall (fun e => is_DescribeInstances e = false) A ->
  is_DescribeInstances U = false ->
  is_DescribeInstances x = true ->
  A ++ [D; U] = pre ++ x :: post ->
  x = D /\ post = [U].
Proof.
  intros HA HU Hx Heq.
  assert (Hnx : ~ is_DescribeInstances x = false) by (rewrite Hx; discriminate).
  destruct (split_middle (fun e => is_DescribeInstances e = false)
              A [D] [U] pre post x HA
              ltac:(constructor; [exact HU|constructor]) Hnx Heq)
    as (pre' & post' & HB & _ & ->).
  destruct pre' as [|p [|q pre']]; try discriminate HB.
  injection HB as -> <-. split; reflexivity.
Qed.

Ltac free :=
  repeat first
    [ apply Forall_nil_2
    | apply Forall_cons_2; [reflexivity|]
    | apply Forall_app_2
    | eapply RetryTrace_create_only; [| |eassumption]; reflexivity
    | eapply PollTrace_only; [| |eassumption]; reflexivity
    | eapply BuildEvents_only; [| |eassumption]; reflexivity ].

(** X10. When the describe call succeeds but returns no instance, the run
    panics on the index: although the instance was created and the UI
    was told so, the step records no instance and the bag is left as it
    was, so nothing is published and nothing will be cleaned up. *)
Theorem Run_empty_description_panics (m m' : Machine)
  (o : Outcome multistep.StepAction) (pre post : list Event)
  (describeRequest : ecs.DescribeInstancesRequest.t)
  (instances : ecs.DescribeInstancesResponse.t) :
  Run W m = (o, m') ->
  log m' =
    log m ++ pre ++ DescribeInstances describeRequest (Ok instances) :: post ->
  ecs.DescribeInstancesResponse.Instances instances = [] ->
  (exists why, o = Panics why) /\
  state m' = state m /\
  Step.instance (self m') = Step.instance (self m) /\
  exists id, post = [UiMessage ("Created instance: " +:+ id)].
Proof.
  intros Hrun Hlog Hempty.
  set (x := DescribeInstances describeRequest (Ok instances)) in *.
  assert (Hnx : ~ is_DescribeInstances x = false) by discriminate.
  apply Run_behaviour in Hrun.
  destruct Hrun as
    [ why Hno
    | config' why m2 _ Hb
    | config' e m2 _ Hb
    | config' req m2 cevs e _ Hb Htr
    | config' req m2 cevs resp pevs e _ Hb Htr Hp
    | config' req m2 cevs resp pevs u e _ Hb Htr Hp
    | config' req m2 cevs resp pevs u instances' why _ Hb Htr Hp Hins
    | config' req m2 cevs resp pevs u instances' i rest _ Hb Htr Hp Hins ];
    try (apply announced_log in Hb as (Hst & Hi & bevs & Hbl & Hbe);
         unfold halted, extend in Hlog; cbn [log] in Hlog;
         rewrite Hbl in Hlog; rewrite <- ?app_assoc in Hlog;
         apply app_inv_head in Hlog).
  - exfalso. eapply log_not_extended; exact Hlog.
  - exfalso.
    eapply (split_outside (fun e => is_DescribeInstances e = false));
      [|exact Hnx|exact Hlog]. free.
  - exfalso.
    eapply (split_outside (fun e => is_DescribeInstances e = false));
      [|exact Hnx|exact Hlog]. free.
  - exfalso.
    eapply (split_outside (fun e => is_DescribeInstances e = false));
      [|exact Hnx|exact Hlog]. free.
  - exfalso.
    eapply (split_outside (fun e => is_DescribeInstances e = false));
      [|exact Hnx|exact Hlog]. free.
  - exfalso.
    assert (HA : (UiSay "Creating instance..." :: bevs ++ cevs ++ pevs) ++
                 [DescribeInstances
                    (describeRequestOf config'
                       (ecs.CreateInstanceResponse.InstanceId resp)) (Err e);
                  UiError (Error (haltError e ""))] = pre ++ x :: post)
      by (rewrite <- Hlog; cbn [app]; rewrite <- ?app_assoc; reflexivity).
    apply describe_position in HA as [Hx _];
      [discriminate Hx|free|reflexivity|reflexivity].
  - assert (HA : (UiSay "Creating instance..." :: bevs ++ cevs ++ pevs) ++
                 [DescribeInstances
                    (describeRequestOf config'
                       (ecs.CreateInstanceResponse.InstanceId resp))
                    (Ok instances');
                  UiMessage ("Created instance: " +:+
                             ecs.CreateInstanceResponse.InstanceId resp)] =
                 pre ++ x :: post)
      by (rewrite <- Hlog; cbn [app]; rewrite <- ?app_assoc; reflexivity).
    apply describe_position in HA as [_ Hpost];
      [|free|reflexivity|reflexivity].
    split; [eauto|]. cbn [state self extend].
    split; [exact Hst|]. split; [exact Hi|]. eauto.
  - exfalso.
    assert (HA : (UiSay "Creating instance..." :: bevs ++ cevs ++ pevs) ++
                 [DescribeInstances
                    (describeRequestOf config'
                       (ecs.CreateInstanceResponse.InstanceId resp))
                    (Ok instances');
                  UiMessage ("Created instance: " +:+
                             ecs.CreateInstanceResponse.InstanceId resp)] =
                 pre ++ x :: post)
      by (rewrite <- Hlog; cbn [app]; rewrite <- ?app_assoc; reflexivity).
    apply describe_position in HA as [Hx _];
      [|free|reflexivity|reflexivity].
    injection Hx as _ <-. rewrite Hempty in Hins. discriminate Hins.
Qed.

(** X11. [Run] never sends a deletion request and never writes an
    ordinary cleanup line: however it ends, nothing it logged is a
    deletion call. *)
Theorem Run_never_deletes (m m' : Machine)
  (o : Outcome multistep.StepAction) :
  Run W m = (o, m') ->
  exists evs,
    log m' = log m ++ evs /\
    Forall (fun e => is_DeleteInstance e = false) evs.
Proof.
  intros Hrun.
  destruct (Run_bag_cases _ _ _ Hrun) as [->|[config Hready]].
  { exists []. rewrite app_nil_r. split; [reflexivity|constructor]. }
  destruct (Run_shape _ _ _ _ Hready Hrun)
    as (bevs & B & C & Hl & Hbe & HC & HB).
  eexists. split; [exact Hl|].
  apply Forall_app_2; [|apply Forall_app_2].
  - constructor; [reflexivity|]. eapply BuildEvents_no_delete; exact Hbe.
  - destruct HB as [->|(req & r & m2 & _ & Htr & _)]; [constructor|].
    eapply RetryTrace_create_only; [| |exact Htr]; reflexivity.
  - eapply after_creation_only; [|exact HC].
    intros [] He; try reflexivity; discriminate He.
Qed.

(** X12. [Cleanup], whatever the state bag holds and however it ends,
    changes neither the step object nor the state bag, and its only
    outward calls are UI lines, deletion requests and pauses: it never
    creates, describes or polls an instance and never reads a file. *)
Theorem Cleanup_effects (m : Machine) :
  exists o evs,
    Cleanup W m = (o, extend m evs) /\
    Forall (fun e => is_UiSay e = true \/ is_DeleteInstance e = true \/
                     is_Sleep e = true) evs.
Proof.
  destruct (Step.instance (self m)) as [i|] eqn:Hi.
  2:{ exists (Returns tt), []. rewrite extend_nil.
      split; [apply Cleanup_noop; exact Hi|constructor]. }
  assert (Hpanic : forall why,
             exists (o : Outcome unit) evs,
               (Panics why,
                mkMachine (self m) (state m)
                  (log m ++ [UiSay (cleanUpMessageText (state m) "instance")]))
               = (o, extend m evs) /\
               Forall (fun e => is_UiSay e = true \/
                                is_DeleteInstance e = true \/
                                is_Sleep e = true) evs).
  { intros why. eexists _, [_]. split; [reflexivity|].
    constructor; [left; reflexivity|constructor]. }
  destruct (state m !! "client") as [[]|] eqn:Hcl;
    try (unfold Cleanup; rewrite bind_get_self, Hi;
         rewrite (bind_run _ _ _ _ _
                    (eq_refl : cleanUpMessage "instance" m = (Returns tt, _)));
         unfold extend at 1; rewrite bind_Get; cbn [state]; rewrite Hcl;
         cbn [as_ClientWrapper]; rewrite bind_panic; apply Hpanic).
  destruct (state m !! "config") as [[|config| |?|?|?|?|?]|] eqn:Hcf;
    try (unfold Cleanup; rewrite bind_get_self, Hi;
         rewrite (bind_run _ _ _ _ _
                    (eq_refl : cleanUpMessage "instance" m = (Returns tt, _)));
         unfold extend at 1; rewrite bind_Get; cbn [state]; rewrite Hcl;
         cbn [as_ClientWrapper]; rewrite bind_ret, bind_Get; cbn [state];
         rewrite Hcf; cbn [as_Config]; rewrite bind_panic; apply Hpanic).
  destruct (state m !! "ui") as [[]|] eqn:Hui;
    try (unfold Cleanup; rewrite bind_get_self, Hi;
         rewrite (bind_run _ _ _ _ _
                    (eq_refl : cleanUpMessage "instance" m = (Returns tt, _)));
         unfold extend at 1; rewrite bind_Get; cbn [state]; rewrite Hcl;
         cbn [as_ClientWrapper]; rewrite bind_ret, bind_Get; cbn [state];
         rewrite Hcf; cbn [as_Config]; rewrite bind_ret, bind_Get;
         cbn [state]; rewrite Hui; cbn [as_Ui]; rewrite bind_panic;
         apply Hpanic).
  destruct (Cleanup_behaviour m i config Hi
              (conj Hcl (conj Hcf Hui)))
    as (r & devs & _ & Htr & Hrun).
  eexists _, _. split; [exact Hrun|].
  constructor; [left; reflexivity|]. apply Forall_app_2.
  - apply RetryTrace_events in Htr. eapply Forall_impl; [exact Htr|].
    intros e [->|[r0 ->]]; [right; right; reflexivity|right; left; reflexivity].
  - destruct r; cbn [cleanupFailure]; [constructor|].
    constructor; [left; reflexivity|constructor].
Qed.

Lemma bag_ready_published (st : gmap string Value) (config : Config.t)
  (i : ecs.Instance.t) (instanceId : string) :
  bag_ready st config ->
  bag_ready
    (<["instance_id" := VString instanceId]> (<["instance" := VInstance i]> st))
    config.
Proof.
  intros (Hcl & Hcf & Hui).
  repeat split; rewrite !lookup_insert_ne by discriminate; assumption.
Qed.

(** X13. After a run that answered [ActionContinue], [Cleanup] on the
    resulting machine returns normally and every deletion request it sends
    is the forced deletion of the instance the run published under the
    key instance. *)
Theorem Run_then_Cleanup_deletes_published (m m' : Machine) :
  Run W m = (Returns multistep.ActionContinue, m') ->
  exists config i r devs,
    state m' !! "instance" = Some (VInstance i) /\
    Cleanup W m' =
      (Returns tt,
       extend m' (UiSay (cleanUpMessageText (state m') "instance")
                  :: devs ++ cleanupFailure i r)) /\
    Forall (fun e => e = Sleep \/
                     exists r0,
                       e = DeleteInstance (deleteRequestOf config i) r0) devs /\
    ecs.DeleteInstanceRequest.InstanceId (deleteRequestOf config i) =
      ecs.Instance.InstanceId i /\
    ecs.DeleteInstanceRequest.Force (deleteRequestOf config i) = "true".
Proof.
  intros Hrun. apply Run_behaviour in Hrun.
  inversion Hrun
    as [ | | | | | |
       | config req m2 cevs resp pevs u instances i rest
           Hready Hb Htr Hp Hins Ho Hm ].
  clear Hrun. subst m'.
  apply build_frame in Hb as (Hst & _).
  set (m' := mkMachine (Step.set_instance (Some i) (self m2))
               (<["instance_id" :=
                    VString (ecs.CreateInstanceResponse.InstanceId resp)]>
                  (<["instance" := VInstance i]> (state m2)))
               (log m2 ++ cevs ++ pevs ++
                [DescribeInstances
                   (describeRequestOf config
                      (ecs.CreateInstanceResponse.InstanceId resp))
                   (Ok instances);
                 UiMessage ("Created instance: " +:+
                            ecs.CreateInstanceResponse.InstanceId resp)])).
  assert (Hready' : bag_ready (state m') config).
  { cbn [state m']. rewrite Hst. unfold announced, extend. cbn [state].
    apply bag_ready_published. exact Hready. }
  assert (Hi : Step.instance (self m') = Some i) by reflexivity.
  destruct (Cleanup_behaviour m' i config Hi Hready')
    as (r & devs & _ & Hdtr & Hclean).
  exists config, i, r, devs.
  split.
  { cbn [state m'].
    rewrite lookup_insert_ne by discriminate. apply lookup_insert_eq. }
  split; [exact Hclean|].
  split; [eapply RetryTrace_events; exact Hdtr|].
  split; reflexivity.
Qed.

(** X14. A run that halts publishes nothing: the keys instance and
    instance_id of the state bag are as they were before the run. *)
Theorem Run_halt_publishes_nothing (m m' : Machine) :
  Run W m = (Returns multistep.ActionHalt, m') ->
  state m' !! "instance" = state m !! "instance" /\
  state m' !! "instance_id" = state m !! "instance_id".
Proof.
  intros Hrun. apply Run_behaviour in Hrun.
  inversion Hrun
    as [ | | config err m2 Hready Hb
       | config req m2 cevs err Hready Hb Htr
       | config req m2 cevs resp pevs err Hready Hb Htr Hp
       | config req m2 cevs resp pevs u err Hready Hb Htr Hp | | ];
    subst; cbn [halted extend state];
    apply build_frame in Hb as (Hst & _);
    rewrite !lookup_insert_ne by discriminate;
    rewrite Hst; split; reflexivity.
Qed.

(** X15. In classic mode a whole run reads no file, whatever user-data
    file the step names and however the run ends. *)
Theorem Run_classic_reads_no_file (m m' : Machine)
  (o : Outcome multistep.StepAction) (networkType : InstanceNetWork) :
  state m !! "networktype" = Some (VInstanceNetWork networkType) ->
  networkType <> InstanceNetworkVpc ->
  Run W m = (o, m') ->
  exists evs,
    log m' = log m ++ evs /\
    Forall (fun e => is_ReadFile e = false) evs.
Proof.
  intros Hnt Hne Hrun.
  destruct (Run_bag_cases _ _ _ Hrun) as [->|[config Hready]].
  { exists []. rewrite app_nil_r. split; [reflexivity|constructor]. }
  destruct (Run_shape _ _ _ _ Hready Hrun)
    as (bevs & B & C & Hl & Hbe & HC & HB).
  eexists. split; [exact Hl|].
  apply Forall_app_2; [|apply Forall_app_2].
  - constructor; [reflexivity|].
    destruct Hbe as [Hno| |path r Hvpc]; repeat constructor.
    exfalso. unfold announced, extend in Hvpc. cbn [state] in Hvpc.
    rewrite Hnt in Hvpc. injection Hvpc as Hx. contradiction.
  - destruct HB as [->|(req & r & m2 & _ & Htr & _)]; [constructor|].
    eapply RetryTrace_create_only; [| |exact Htr]; reflexivity.
  - eapply after_creation_only; [|exact HC].
    intros [] He; try reflexivity; discriminate He.
Qed.

(** X16. In private-network mode the build never writes to the step
    object, however it ends: no default is stored, and the configured
    charge type and bandwidth stay as they are. *)
Theorem build_vpc_keeps_step (m m' : Machine)
  (o : Outcome (result ecs.CreateInstanceRequest.t)) :
  state m !! "networktype" = Some (VInstanceNetWork InstanceNetworkVpc) ->
  buildCreateInstanceRequest W m = (o, m') ->
  self m' = self m.
Proof.
  unfold buildCreateInstanceRequest. unfold_ops. intros Hnt Hb.
  assert (Hnone : forall o1, (o1, m) = (o, m') -> self m' = self m).
  { intros o1 Heq. injection Heq as <- <-. reflexivity. }
  assert (Htok : forall o1, (o1, afterToken m) = (o, m') -> self m' = self m).
  { intros o1 Heq. injection Heq as <- <-. reflexivity. }
  destruct (state m !! "config") as [[]|] eqn:Hc; simpl in Hb;
    try (eapply Hnone; exact Hb).
  fold (afterToken m) in Hb.
  destruct (state m !! "source_image") as [[]|] eqn:Hi; simpl in Hb;
    try (eapply Htok; exact Hb).
  destruct (state m !! "securitygroupid") as [[]|] eqn:Hs; simpl in Hb;
    try (eapply Htok; exact Hb).
  rewrite Hnt in Hb. simpl in Hb. rewrite String.eqb_refl in Hb.
  simpl in Hb.
  destruct (state m !! "vswitchid") as [[]|] eqn:Hv; simpl in Hb;
    try (eapply Htok; exact Hb).
  rewrite getUserData_eq in Hb. simpl in Hb.
  destruct (negb (String.eqb (Step.UserDataFile (self m)) "")); simpl in Hb.
  - destruct (ioutil_ReadFile W _ (Step.UserDataFile (self m)));
      simpl in Hb; injection Hb as <- <-; reflexivity.
  - eapply Htok; exact Hb.
Qed.

End Properties.

(** * Examples on the sample deployment *)

Example sample_run_log :
  log (snd (@Run sampleExternals busyThenCreated (sampleMachine "vpc"))) =
  [UiSay "Creating instance...";
   TimeOrderedUUID sampleToken;
   CreateInstance (sampleRequest true) busy;
   Sleep;
   CreateInstance (sampleRequest true) busy;
   Sleep;
   CreateInstance (sampleRequest true) created;
   InstanceStatus "region-1" "i-123" "Starting";
   Sleep;
   InstanceStatus "region-1" "i-123" "Stopped";
   DescribeInstances
     (describeRequestOf sampleConfig "i-123")
     (Ok (ecs.DescribeInstancesResponse.mk [sampleInstance]));
   UiMessage "Created instance: i-123"].
Proof. vm_compute. reflexivity. Qed.

Lemma run_pair {A} (c : M A) (m : Machine) : c m = (fst (c m), snd (c m)).
Proof. destruct (c m). reflexivity. Qed.

Lemma Run_fatal_creation_error_halts_witness :
  fst (@Run sampleExternals busyThenForbidden (sampleMachine "vpc")) =
    Returns multistep.ActionHalt /\
  Forall (fun e => is_CreateInstance e = false)
    [UiError "Error creating instance: Forbidden: not allowed"].
Proof.
  apply (@Run_fatal_creation_error_halts sampleExternals busyThenForbidden
           (sampleMachine "vpc")
           (snd (@Run sampleExternals busyThenForbidden (sampleMachine "vpc")))
           (fst (@Run sampleExternals busyThenForbidden (sampleMachine "vpc")))
           [UiSay "Creating instance..."; TimeOrderedUUID sampleToken;
            CreateInstance (sampleRequest true) busy; Sleep]
           [UiError "Error creating instance: Forbidden: not allowed"]
           (sampleRequest true) "Forbidden" "not allowed").
  - apply run_pair.
  - vm_compute. reflexivity.
  - discriminate.
Defined.

Example sample_cleanup_log :
  @Cleanup sampleExternals busyThenCreated recordedMachine =
  (Returns tt,
   extend recordedMachine
     [UiSay "Cleaning up instance";
      DeleteInstance (deleteRequestOf sampleConfig sampleInstance)
        (Err (ServerError "IncorrectInstanceStatus.Initializing"
                "initializing"));
      Sleep;
      DeleteInstance (deleteRequestOf sampleConfig sampleInstance)
        (Err (ServerError "IncorrectInstanceStatus.Initializing"
                "initializing"));
      Sleep;
      DeleteInstance (deleteRequestOf sampleConfig sampleInstance)
        (Err (ServerError "IncorrectInstanceStatus.Initializing"
                "initializing"));
      Sleep;
      UiSay ("Failed to clean up instance i-123: " +:+
             "evaluate failed after retries: " +:+
             "IncorrectInstanceStatus.Initializing: initializing")]).
Proof. vm_compute. reflexivity. Qed.

Lemma sampleBag_ready (networkType : InstanceNetWork) :
  bag_ready (sampleBag networkType) sampleConfig.
Proof. repeat split; reflexivity. Defined.

Lemma Cleanup_never_escalates_witness :
  bag_ready (state recordedMachine) sampleConfig /\
  exists evs,
    @Cleanup sampleExternals busyThenCreated recordedMachine =
      (Returns tt, extend recordedMachine evs) /\
    Forall (fun e => is_UiError e = false) evs.
Proof.
  split; [apply sampleBag_ready|].
  destruct (@Cleanup_never_escalates sampleExternals busyThenCreated
              recordedMachine sampleConfig
              (or_intror (sampleBag_ready "vpc")))
    as (evs & Hrun & Hno & _).
  exists evs. split; assumption.
Defined.

Lemma Run_success_publishes_witness :
  @Run sampleExternals busyThenCreated (sampleMachine "vpc") =
    (Returns multistep.ActionContinue,
     snd (@Run sampleExternals busyThenCreated (sampleMachine "vpc"))) /\
  exists resp i,
    Step.instance
      (self (snd (@Run sampleExternals busyThenCreated
                    (sampleMachine "vpc")))) = Some i /\
    state (snd (@Run sampleExternals busyThenCreated (sampleMachine "vpc"))) =
      <["instance_id" := VString (ecs.CreateInstanceResponse.InstanceId resp)]>
        (<["instance" := VInstance i]> (state (sampleMachine "vpc"))).
Proof.
  set (m' := snd (@Run sampleExternals busyThenCreated (sampleMachine "vpc"))).
  assert (Hrun : @Run sampleExternals busyThenCreated (sampleMachine "vpc") =
                 (Returns multistep.ActionContinue, m'))
    by (vm_compute; reflexivity).
  split; [exact Hrun|].
  destruct (@Run_success_publishes sampleExternals busyThenCreated
              (sampleMachine "vpc") m' Hrun)
    as (config & req & resp & instances & i & pre & polls &
        _ & _ & _ & _ & _ & Hi & Hst).
  exists resp, i. split; assumption.
Defined.

Lemma Run_halt_after_creation_leaks_witness :
  @Run sampleExternals neverStops (sampleMachine "vpc") =
    (Returns multistep.ActionHalt,
     snd (@Run sampleExternals neverStops (sampleMachine "vpc"))) /\
  Step.instance
    (self (snd (@Run sampleExternals neverStops (sampleMachine "vpc")))) =
    None /\
  @Cleanup sampleExternals neverStops
    (snd (@Run sampleExternals neverStops (sampleMachine "vpc"))) =
    (Returns tt, snd (@Run sampleExternals neverStops (sampleMachine "vpc"))).
Proof.
  set (m' := snd (@Run sampleExternals neverStops (sampleMachine "vpc"))).
  assert (Hrun : @Run sampleExternals neverStops (sampleMachine "vpc") =
                 (Returns multistep.ActionHalt, m'))
    by (vm_compute; reflexivity).
  split; [exact Hrun|].
  destruct (@Run_halt_after_creation_leaks sampleExternals neverStops
              (sampleMachine "vpc") m'
              [UiSay "Creating instance..."; TimeOrderedUUID sampleToken]
              (skipn 3 (log m')) (sampleRequest true)
              (ecs.CreateInstanceResponse.mk "i-123")
              eq_refl Hrun ltac:(vm_compute; reflexivity))
    as [Hnil Hclean].
  split; [exact Hnil|]. apply Hclean. reflexivity.
Defined.

Lemma build_userdata_encoding_witness :
  exists resolved,
    @resolveUserData busyThenCreated (self (sampleMachine "vpc"))
      (log (@afterToken busyThenCreated (sampleMachine "vpc"))) =
      Ok resolved /\
    (resolved <> "" ->
     ecs.CreateInstanceRequest.UserData (sampleRequest true) =
       base64.EncodeToString resolved /\
     ecs.CreateInstanceRequest.UserData (sampleRequest true) <> "") /\
    (resolved = "" ->
     ecs.CreateInstanceRequest.UserData (sampleRequest true) = "").
Proof.
  apply (@build_userdata_encoding sampleExternals busyThenCreated
           (sampleMachine "vpc")
           (snd (@buildCreateInstanceRequest sampleExternals busyThenCreated
                   (sampleMachine "vpc")))
           (sampleRequest true)).
  - reflexivity.
  - vm_compute. reflexivity.
Defined.


Lemma build_data_disk_encryption_witness :
  Forall2
    (fun imageDisk dataDisk =>
       ecs.CreateInstanceDataDisk.Encrypted dataDisk =
       encryptedField (ApsaraStackDiskDevice.Encrypted imageDisk))
    (Config.ECSImagesDiskMappings sampleConfig)
    (ecs.CreateInstanceRequest.DataDisk (sampleRequest true)).
Proof.
  apply (@build_data_disk_encryption sampleExternals busyThenCreated
           (sampleMachine "vpc")
           (snd (@buildCreateInstanceRequest sampleExternals busyThenCreated
                   (sampleMachine "vpc")))
           (sampleRequest true) sampleConfig).
  - reflexivity.
  - vm_compute. reflexivity.
Defined.

Example sample_encrypted_fields :
  map ecs.CreateInstanceDataDisk.Encrypted
    (ecs.CreateInstanceRequest.DataDisk (sampleRequest true)) =
  [""; "true"; "false"].
Proof. reflexivity. Qed.



Lemma Run_single_token_witness :
  log (snd (@Run sampleExternals busyThenCreated (sampleMachine "vpc"))) =
    [UiSay "Creating instance...";
     TimeOrderedUUID sampleToken;
     CreateInstance (sampleRequest true) busy;
     Sleep;
     CreateInstance (sampleRequest true) busy;
     Sleep;
     CreateInstance (sampleRequest true) created;
     InstanceStatus "region-1" "i-123" "Starting";
     Sleep;
     InstanceStatus "region-1" "i-123" "Stopped";
     DescribeInstances
       (describeRequestOf sampleConfig "i-123")
       (Ok (ecs.DescribeInstancesResponse.mk [sampleInstance]));
     UiMessage "Created instance: i-123"] /\
  exists evs token,
    log (snd (@Run sampleExternals busyThenCreated (sampleMachine "vpc"))) =
      log (sampleMachine "vpc") ++ evs /\
    List.filter is_TimeOrderedUUID evs = [TimeOrderedUUID token] /\
    (forall req r,
       CreateInstance req r ∈ evs ->
       ecs.CreateInstanceRequest.ClientToken req = token /\
       forall req' r', CreateInstance req' r' ∈ evs -> req' = req) /\
    (exists pre r post,
       evs = pre ++ CreateInstance (sampleRequest true) r :: post /\
       Forall (fun e => is_CreateInstance e = false) pre) /\
    (exists r' post',
       skipn 3 evs = Sleep :: CreateInstance (sampleRequest true) r' :: post').
Proof.
  split; [vm_compute; reflexivity|].
  destruct (@Run_single_token sampleExternals busyThenCreated
              (sampleMachine "vpc")
              (snd (@Run sampleExternals busyThenCreated (sampleMachine "vpc")))
              (fst (@Run sampleExternals busyThenCreated (sampleMachine "vpc")))
              sampleConfig (sampleBag_ready "vpc")
              (run_pair (@Run sampleExternals busyThenCreated)
                 (sampleMachine "vpc")))
    as (evs & token & Hl & Htok & Hsame & Hsent & Hresend).
  exists evs, token.
  split; [exact Hl|]. split; [exact Htok|]. split; [exact Hsame|]. split.
  - apply (Hsent (sampleRequest true)
             (snd (@buildCreateInstanceRequest sampleExternals busyThenCreated
                     (@announced (sampleMachine "vpc"))))).
    + vm_compute. reflexivity.
    + vm_compute. lia.
  - change (log (snd (@Run sampleExternals busyThenCreated
                        (sampleMachine "vpc"))) = evs) in Hl.
    apply (Hresend [UiSay "Creating instance..."; TimeOrderedUUID sampleToken]
             (sampleRequest true) "request is being processed"
             (skipn 3 evs)).
    + rewrite <- Hl. vm_compute. reflexivity.
    + vm_compute. lia.
Defined.

Lemma build_classic_ignores_userdata_witness :
  (forall req,
     fst (@buildCreateInstanceRequest sampleExternals busyThenCreated
            (sampleMachine "classic")) = Returns (Ok req) ->
     ecs.CreateInstanceRequest.UserData req = "") /\
  exists evs,
    log (snd (@buildCreateInstanceRequest sampleExternals busyThenCreated
                (sampleMachine "classic"))) =
      log (sampleMachine "classic") ++ evs /\
    Forall (fun e => is_ReadFile e = false) evs.
Proof.
  apply (@build_classic_ignores_userdata sampleExternals busyThenCreated
           (sampleMachine "classic")
           (snd (@buildCreateInstanceRequest sampleExternals busyThenCreated
                   (sampleMachine "classic")))
           (fst (@buildCreateInstanceRequest sampleExternals busyThenCreated
                   (sampleMachine "classic")))
           "classic").
  - reflexivity.
  - discriminate.
  - apply run_pair.
Defined.

Example sample_classic_request :
  fst (@buildCreateInstanceRequest sampleExternals busyThenCreated
         (sampleMachine "classic")) =
  Returns (Ok (sampleRequest false)).
Proof. vm_compute. reflexivity. Qed.

(** ** Examples for the further properties *)

Example sample_unreadable_file_run :
  @Run sampleExternals busyThenCreated (fileMachine "/missing") =
  (Returns multistep.ActionHalt,
   mkMachine (fileStep "/missing")
     (<["error" :=
          VError (PlainError "open /missing: no such file or directory")]>
        (sampleBag "vpc"))
     [UiSay "Creating instance...";
      TimeOrderedUUID sampleToken;
      ReadFile "/missing"
        (Err (PlainError "open /missing: no such file or directory"));
      UiError "open /missing: no such file or directory"]).
Proof. vm_compute. reflexivity. Qed.

Lemma Run_unreadable_userdata_halts_witness :
  fst (@Run sampleExternals busyThenCreated (fileMachine "/missing")) =
    Returns multistep.ActionHalt /\
  Forall (fun e => is_CreateInstance e = false)
    [UiSay "Creating instance...";
     TimeOrderedUUID sampleToken;
     ReadFile "/missing"
       (Err (PlainError "open /missing: no such file or directory"));
     UiError "open /missing: no such file or directory"].
Proof.
  apply (@Run_unreadable_userdata_halts sampleExternals busyThenCreated
           (fileMachine "/missing")
           (snd (@Run sampleExternals busyThenCreated (fileMachine "/missing")))
           (fst (@Run sampleExternals busyThenCreated (fileMachine "/missing")))
           _ "/missing"
           (PlainError "open /missing: no such file or directory")).
  - apply run_pair.
  - vm_compute. reflexivity.
  - do 2 apply list_elem_of_further. apply list_elem_of_here.
Defined.

Lemma build_password_witness :
  ecs.CreateInstanceRequest.Password (sampleRequest true) = "winrm-pw".
Proof.
  exact (@build_password sampleExternals busyThenCreated
           (sampleMachine "vpc")
           (snd (@buildCreateInstanceRequest sampleExternals busyThenCreated
                   (sampleMachine "vpc")))
           (sampleRequest true) sampleConfig eq_refl
           ltac:(vm_compute; reflexivity)).
Defined.

Lemma build_io_optimized_witness :
  ecs.CreateInstanceRequest.IoOptimized (sampleRequest true) = "optimized".
Proof.
  exact (@build_io_optimized sampleExternals busyThenCreated
           (sampleMachine "vpc")
           (snd (@buildCreateInstanceRequest sampleExternals busyThenCreated
                   (sampleMachine "vpc")))
           (sampleRequest true) ltac:(vm_compute; reflexivity)).
Defined.

Lemma build_classic_defaults_persist_witness :
  Step.InternetChargeType
    (self (snd (@buildCreateInstanceRequest sampleExternals busyThenCreated
                  (sampleMachine "classic")))) <> "" /\
  Step.InternetMaxBandwidthOut
    (self (snd (@buildCreateInstanceRequest sampleExternals busyThenCreated
                  (sampleMachine "classic")))) <> 0.
Proof.
  destruct (@build_classic_defaults_persist sampleExternals busyThenCreated
              (sampleMachine "classic")
              (snd (@buildCreateInstanceRequest sampleExternals
                      busyThenCreated (sampleMachine "classic")))
              (snd (@buildCreateInstanceRequest sampleExternals
                      busyThenCreated
                      (snd (@buildCreateInstanceRequest sampleExternals
                              busyThenCreated (sampleMachine "classic")))))
              (sampleRequest false) (sampleRequest false) "classic"
              eq_refl ltac:(discriminate)
              ltac:(vm_compute; reflexivity)
              ltac:(vm_compute; reflexivity))
    as (Hc & Hb & _).
  split; assumption.
Defined.

Lemma build_makes_no_vendor_call_witness :
  state (snd (@buildCreateInstanceRequest sampleExternals busyThenCreated
                (fileMachine "/etc/user-data"))) =
    state (fileMachine "/etc/user-data") /\
  exists evs,
    log (snd (@buildCreateInstanceRequest sampleExternals busyThenCreated
                (fileMachine "/etc/user-data"))) =
      log (fileMachine "/etc/user-data") ++ evs /\
    (length evs <= 2)%nat.
Proof.
  destruct (@build_makes_no_vendor_call sampleExternals busyThenCreated
              (fileMachine "/etc/user-data") _ _
              (run_pair (@buildCreateInstanceRequest sampleExternals
                           busyThenCreated)
                 (fileMachine "/etc/user-data")))
    as (Hst & _ & evs & Hl & Hlen & _).
  split; [exact Hst|]. exists evs. split; assumption.
Defined.

Lemma build_classic_succeeds_witness :
  exists req m',
    @buildCreateInstanceRequest sampleExternals busyThenCreated
      (mkMachine (sampleStep None) (bagWithoutVSwitch "classic") []) =
      (Returns (Ok req), m') /\
    ecs.CreateInstanceRequest.VSwitchId req = "".
Proof.
  destruct (@build_classic_succeeds sampleExternals busyThenCreated
              (mkMachine (sampleStep None) (bagWithoutVSwitch "classic") [])
              sampleConfig sampleImage "sg-1" "classic"
              eq_refl eq_refl eq_refl eq_refl ltac:(discriminate))
    as (req & m' & Hb & Hv & _).
  exists req, m'. split; assumption.
Defined.

Lemma build_vpc_needs_vswitch_witness :
  exists why,
    @buildCreateInstanceRequest sampleExternals busyThenCreated
      (mkMachine (sampleStep None) (bagWithoutVSwitch "vpc") []) =
    (Panics why,
     @afterToken busyThenCreated
       (mkMachine (sampleStep None) (bagWithoutVSwitch "vpc") [])).
Proof.
  exact (@build_vpc_needs_vswitch sampleExternals busyThenCreated
           (mkMachine (sampleStep None) (bagWithoutVSwitch "vpc") [])
           sampleConfig sampleImage "sg-1"
           eq_refl eq_refl eq_refl eq_refl eq_refl).
Defined.

Lemma Run_missing_bag_panics_witness :
  exists why,
    @Run sampleExternals busyThenCreated emptyMachine = (Panics why, emptyMachine).
Proof.
  apply (@Run_missing_bag_panics sampleExternals busyThenCreated emptyMachine).
  intros config (Hcl & _). discriminate Hcl.
Defined.

Example sample_empty_description_run :
  log (snd (@Run sampleExternals describesNothing (sampleMachine "vpc"))) =
  [UiSay "Creating instance...";
   TimeOrderedUUID sampleToken;
   CreateInstance (sampleRequest true) created;
   InstanceStatus "region-1" "i-123" "Stopped";
   DescribeInstances (describeRequestOf sampleConfig "i-123")
     (Ok (ecs.DescribeInstancesResponse.mk []));
   UiMessage "Created instance: i-123"].
Proof. vm_compute. reflexivity. Qed.

Lemma Run_empty_description_panics_witness :
  (exists why,
     fst (@Run sampleExternals describesNothing (sampleMachine "vpc")) =
     Panics why) /\
  state (snd (@Run sampleExternals describesNothing (sampleMachine "vpc"))) =
    state (sampleMachine "vpc") /\
  Step.instance
    (self (snd (@Run sampleExternals describesNothing (sampleMachine "vpc")))) =
    Step.instance (self (sampleMachine "vpc")).
Proof.
  destruct (@Run_empty_description_panics sampleExternals describesNothing
              (sampleMachine "vpc")
              (snd (@Run sampleExternals describesNothing (sampleMachine "vpc")))
              (fst (@Run sampleExternals describesNothing (sampleMachine "vpc")))
              [UiSay "Creating instance..."; TimeOrderedUUID sampleToken;
               CreateInstance (sampleRequest true) created;
               InstanceStatus "region-1" "i-123" "Stopped"]
              [UiMessage "Created instance: i-123"]
              (describeRequestOf sampleConfig "i-123")
              (ecs.DescribeInstancesResponse.mk [])
              (run_pair (@Run sampleExternals describesNothing)
                 (sampleMachine "vpc"))
              ltac:(vm_compute; reflexivity) eq_refl)
    as (Hp & Hst & Hi & _).
  split; [exact Hp|]. split; assumption.
Defined.

Lemma Run_never_deletes_witness :
  exists evs,
    log (snd (@Run sampleExternals busyThenCreated (sampleMachine "vpc"))) =
      log (sampleMachine "vpc") ++ evs /\
    Forall (fun e => is_DeleteInstance e = false) evs.
Proof.
  exact (@Run_never_deletes sampleExternals busyThenCreated
           (sampleMachine "vpc") _ _
           (run_pair (@Run sampleExternals busyThenCreated)
              (sampleMachine "vpc"))).
Defined.

Lemma Run_then_Cleanup_deletes_published_witness :
  exists config i r devs,
    state (snd (@Run sampleExternals busyThenCreated (sampleMachine "vpc")))
      !! "instance" = Some (VInstance i) /\
    Forall (fun e => e = Sleep \/
                     exists r0,
                       e = DeleteInstance (deleteRequestOf config i) r0) devs /\
    @Cleanup sampleExternals busyThenCreated
      (snd (@Run sampleExternals busyThenCreated (sampleMachine "vpc"))) =
      (Returns tt,
       extend (snd (@Run sampleExternals busyThenCreated (sampleMachine "vpc")))
         (UiSay "Cleaning up instance" :: devs ++ cleanupFailure i r)).
Proof.
  destruct (@Run_then_Cleanup_deletes_published sampleExternals
              busyThenCreated (sampleMachine "vpc")
              (snd (@Run sampleExternals busyThenCreated (sampleMachine "vpc")))
              ltac:(vm_compute; reflexivity))
    as (config & i & r & devs & Hi & Hc & Hd & _).
  exists config, i, r, devs. split; [exact Hi|]. split; [exact Hd|exact Hc].
Defined.

Lemma Run_halt_publishes_nothing_witness :
  state (snd (@Run sampleExternals neverStops (sampleMachine "vpc")))
    !! "instance" = state (sampleMachine "vpc") !! "instance" /\
  state (snd (@Run sampleExternals neverStops (sampleMachine "vpc")))
    !! "instance_id" = state (sampleMachine "vpc") !! "instance_id".
Proof.
  exact (@Run_halt_publishes_nothing sampleExternals neverStops
           (sampleMachine "vpc")
           (snd (@Run sampleExternals neverStops (sampleMachine "vpc")))
           ltac:(vm_compute; reflexivity)).
Defined.

Lemma Run_classic_reads_no_file_witness :
  exists evs,
    log (snd (@Run sampleExternals busyThenCreated
                (mkMachine (fileStep "/missing") (sampleBag "classic") []))) =
      log (mkMachine (fileStep "/missing") (sampleBag "classic") []) ++ evs /\
    Forall (fun e => is_ReadFile e = false) evs.
Proof.
  exact (@Run_classic_reads_no_file sampleExternals busyThenCreated
           (mkMachine (fileStep "/missing") (sampleBag "classic") []) _ _
           "classic" eq_refl ltac:(discriminate)
           (run_pair (@Run sampleExternals busyThenCreated)
              (mkMachine (fileStep "/missing") (sampleBag "classic") []))).
Defined.

Lemma build_vpc_keeps_step_witness :
  self (snd (@buildCreateInstanceRequest sampleExternals busyThenCreated
               (sampleMachine "vpc"))) =
  self (sampleMachine "vpc").
Proof.
  exact (@build_vpc_keeps_step sampleExternals busyThenCreated
           (sampleMachine "vpc") _ _ eq_refl
           (run_pair (@buildCreateInstanceRequest sampleExternals
                        busyThenCreated)
              (sampleMachine "vpc"))).
Defined.
